(** * Report uploader: the render-and-store pipeline of [server.js]

    A shallow embedding of the Express handlers of [server.js]
    ([POST /submit-report], [GET /all-reports], [GET /get-pdf/:fileId],
    [DELETE /delete-report/:fileId]) together with the pieces of the
    JavaScript run time they rely on (strings as UTF-16 code units,
    truthiness, [parseInt], property lookup through the prototype chain),
    the calls made on the Playwright page and the GridFS bucket. *)

From Stdlib Require Import ZArith NArith Ascii String DecimalString DecimalPos.
From Stdlib.Strings Require Import Byte.
From stdpp Require Import gmap list sorting.

Local Open Scope Z_scope.

(** ** JavaScript strings *)

Module JsString.

(** A JavaScript string is a sequence of UTF-16 code units; [length],
    [slice] and the regular expressions of the source all count code
    units. *)
Definition jsstring := list N.

(** An ASCII literal of the source as a sequence of code units. *)
Definition js (s : string) : jsstring :=
  List.map N_of_ascii (list_ascii_of_string s).

(** The double quote, which the literals below splice in by its code. *)
Definition dquote : jsstring := [34%N].

(** [WhiteSpace] and [LineTerminator] of ECMAScript: what [trim],
    [parseInt] and the class [\s] skip. *)
Definition isWhiteSpace (c : N) : bool :=
  ((9 <=? c) && (c <=? 13) || (c =? 32) || (c =? 160) || (c =? 5760)
   || (8192 <=? c) && (c <=? 8202) || (c =? 8232) || (c =? 8233)
   || (c =? 8239) || (c =? 8287) || (c =? 12288) || (c =? 65279))%N.

(** The decimal digits. *)
Definition isDecimalDigit (c : N) : bool := ((48 <=? c) && (c <=? 57))%N.

(** The class [\w]: ASCII letters, digits and the underscore. *)
Definition isWordChar (c : N) : bool :=
  ((48 <=? c) && (c <=? 57) || (65 <=? c) && (c <=? 90)
   || (97 <=? c) && (c <=? 122) || (c =? 95))%N.

Fixpoint dropWhile {A} (p : A -> bool) (l : list A) : list A :=
  match l with
  | [] => []
  | x :: l' => if p x then dropWhile p l' else l
  end.

Fixpoint takeWhile {A} (p : A -> bool) (l : list A) : list A :=
  match l with
  | [] => []
  | x :: l' => if p x then x :: takeWhile p l' else []
  end.

Definition trimStart (s : jsstring) : jsstring := dropWhile isWhiteSpace s.
Definition trimEnd (s : jsstring) : jsstring :=
  rev (dropWhile isWhiteSpace (rev s)).
Definition trim (s : jsstring) : jsstring := trimEnd (trimStart s).

Definition isEmpty (s : jsstring) : bool :=
  match s with [] => true | _ => false end.

Fixpoint startsWith (p s : jsstring) : bool :=
  match p, s with
  | [], _ => true
  | _ :: _, [] => false
  | a :: p', b :: s' => (a =? b)%N && startsWith p' s'
  end.

(** [s.includes(p)]: [p] occurs in [s] at some position. *)
Fixpoint includes (s p : jsstring) : bool :=
  startsWith p s ||
  match s with
  | [] => false
  | _ :: s' => includes s' p
  end.

(** [s.replace(/c/g, "")] for a single code unit [c]. *)
Definition removeAll (c : N) (s : jsstring) : jsstring :=
  List.filter (fun x => negb (x =? c)%N) s.

(** [s.slice(0, n)]. *)
Definition slice0 (n : nat) (s : jsstring) : jsstring := firstn n s.

(** [s.replace(/\s+/g, "_")]: every maximal run of white space becomes one
    underscore. *)
Fixpoint collapseSpaces (s : jsstring) : jsstring :=
  match s with
  | [] => []
  | c :: s' =>
      if isWhiteSpace c
      then match s' with
           | c' :: _ => if isWhiteSpace c' then collapseSpaces s'
                        else 95%N :: collapseSpaces s'
           | [] => [95%N]
           end
      else c :: collapseSpaces s'
  end.

(** [s.replace(/[^\w\-_.]/g, "")]. *)
Definition keepNameChars (s : jsstring) : jsstring :=
  List.filter (fun c => isWordChar c || (c =? 45)%N || (c =? 95)%N || (c =? 46)%N) s.

End JsString.
Import JsString.

(** ** JavaScript values *)

Module JsValue.

(** The values the handlers meet: a field of the parsed JSON body is
    absent ([VUndefined]), [null], a boolean, a number or a string
    (array and object fields are not modelled), and a property read can
    also reach a native function or [Object.prototype] itself.
    [VNum z] is the integer-valued number [z], in the range where
    [Number::toString] prints plain decimal digits. *)
Inductive value :=
  | VUndefined
  | VNull
  | VBool (b : bool)
  | VNum (z : Z)
  | VStr (s : jsstring)
  | VNative (name : jsstring)
  | VObjectPrototype.

#[global] Instance value_eq_dec : EqDecision value.
Proof. solve_decision. Defined.

(** [ToBoolean]. *)
Definition truthy (v : value) : bool :=
  match v with
  | VUndefined | VNull => false
  | VBool b => b
  | VNum z => negb (z =? 0)
  | VStr s => negb (isEmpty s)
  | VNative _ | VObjectPrototype => true
  end.

Definition isNumber (v : value) : bool :=
  match v with VNum _ => true | _ => false end.
Definition isString (v : value) : bool :=
  match v with VStr _ => true | _ => false end.

(** [Number::toString] on an integer-valued number below 10^21 in
    size, where it prints the plain decimal digits.  From 10^21 on
    JavaScript prints the exponent form, which this does not follow: the
    statements that go through the spelling of a number carry the
    bound. *)
Definition Number_toString (z : Z) : jsstring :=
  js (NilZero.string_of_int (Z.to_int z)).

(** [ToString], also what [.toString()] returns on these values. *)
Definition ToString (v : value) : jsstring :=
  match v with
  | VUndefined => js "undefined"
  | VNull => js "null"
  | VBool true => js "true"
  | VBool false => js "false"
  | VNum z => Number_toString z
  | VStr s => s
  | VNative name => js "function " ++ name ++ js "() { [native code] }"
  | VObjectPrototype => js "[object Object]"
  end.

(** [a || b]. *)
Definition or_else (a b : value) : value := if truthy a then a else b.

(** The value of a digit in radixes up to 36. *)
Definition digitValue (c : N) : option Z :=
  if ((48 <=? c) && (c <=? 57))%N then Some (Z.of_N c - 48)
  else if ((97 <=? c) && (c <=? 122))%N then Some (Z.of_N c - 87)
  else if ((65 <=? c) && (c <=? 90))%N then Some (Z.of_N c - 55)
  else None.

Definition isRadixDigit (R : Z) (c : N) : bool :=
  match digitValue c with
  | Some d => d <? R
  | None => false
  end.

Definition digitsValue (R : Z) (ds : jsstring) : Z :=
  fold_left (fun acc c => acc * R + default 0 (digitValue c)) ds 0.

(** [parseInt(v, radix)], the radix given as [0] when the argument is left
    out.  [None] is [NaN]. *)
Definition parseInt (v : value) (radix : Z) : option Z :=
  let inp := trimStart (ToString v) in
  let sign := match inp with c :: _ => if (c =? 45)%N then -1 else 1 | [] => 1 end in
  let inp := match inp with
             | c :: rest => if ((c =? 43) || (c =? 45))%N then rest else inp
             | [] => inp
             end in
  if negb (radix =? 0) && ((radix <? 2) || (36 <? radix)) then None
  else
    let stripPrefix := (radix =? 0) || (radix =? 16) in
    let hex := stripPrefix && (startsWith (js "0x") inp || startsWith (js "0X") inp) in
    let R := if hex then 16 else if radix =? 0 then 10 else radix in
    let inp := if hex then skipn 2 inp else inp in
    let ds := takeWhile (isRadixDigit R) inp in
    if isEmpty ds then None else Some (sign * digitsValue R ds).

End JsValue.
Import JsValue.

(** ** The folder taxonomy and the classification of a submission *)

(** The entries of the object literal [reportTypeToFolder]. *)
Definition reportTypeToFolder_entries : list (jsstring * Z) :=
  [ (js "liquid_ir", 1);
    (js "draining_dry_ir", 2);
    (js "final_dimension_ir", 3);
    (js "hydrostatic_ir", 4);
    (js "penetrating_oil_ir", 5);
    (js "pickling_pass_ir", 6);
    (js "raw_material_ir", 7);
    (js "rf_pad_ir", 8);
    (js "stage_ir", 9);
    (js "surface_prep_paint_ir", 10);
    (js "vacuum_ir", 11);
    (js "visual_exam_ir", 12);
    (js "extra1", 13);
    (js "extra2", 14);
    (js "extra3", 15) ].

(** The own properties of the object. *)
Definition reportTypeToFolder : gmap jsstring Z :=
  list_to_map reportTypeToFolder_entries.

(** The function-valued properties every object literal inherits from
    [Object.prototype]. *)
Definition ObjectPrototype_functions : list jsstring :=
  [ js "constructor"; js "hasOwnProperty"; js "isPrototypeOf";
    js "propertyIsEnumerable"; js "toLocaleString"; js "toString";
    js "valueOf"; js "__defineGetter__"; js "__defineSetter__";
    js "__lookupGetter__"; js "__lookupSetter__" ].

(** [obj[key]] on an object literal with number-valued own properties: the
    own property if there is one, else what the prototype chain gives. *)
Definition getProperty (obj : gmap jsstring Z) (key : value) : value :=
  let k := ToString key in
  match obj !! k with
  | Some n => VNum n
  | None =>
      if bool_decide (k ∈ ObjectPrototype_functions) then VNative k
      else if bool_decide (k = js "__proto__") then VObjectPrototype
      else VUndefined
  end.

(** Lines 91-97 of the handler: the value [folderNumber] ends up with. *)
Definition resolveFolder (reportType folder : value) : value :=
  if truthy reportType && truthy (getProperty reportTypeToFolder reportType)
  then getProperty reportTypeToFolder reportType
  else if isNumber folder
          || (isString folder && negb (isEmpty (trim (ToString folder))))
  then match parseInt folder 10 with
       | Some f => if (1 <=? f) && (f <=? 15) then VNum f else VNull
       | None => VNull
       end
  else VNull.

(** ** The document handed to the page *)

(** Line 108: the title is the first truthy one of [reportTitle],
    [reportType] and the literal, as a string, without any [<] and cut
    to 150 code units. *)
Definition resolvedTitle (reportTitle reportType : value) : jsstring :=
  slice0 150
    (removeAll 60
       (ToString (or_else reportTitle (or_else reportType (VStr (js "Report")))))).

Definition nl : jsstring := [10%N].
Definition indent (n : nat) (text : jsstring) : jsstring := repeat 32%N n ++ text.

Definition rootMarker : jsstring := js "<html".

Definition charsetDeclaration : jsstring :=
  js "<meta charset=" ++ dquote ++ js "UTF-8" ++ dquote ++ js ">".

Definition titleElement (title : jsstring) : jsstring :=
  js "<title>" ++ title ++ js "</title>".

(** The [<style>] element of the template, lines 116-132. *)
Definition defaultStylesheet : jsstring :=
  js "<style>" ++ nl ++
  indent 12 (js "html, body {") ++ nl ++
  indent 14 (js "margin: 0;") ++ nl ++
  indent 14 (js "padding: 0;") ++ nl ++
  indent 14 (js "font-family: 'Segoe UI', Arial, sans-serif;") ++ nl ++
  indent 14 (js "font-size: 12pt;") ++ nl ++
  indent 14 (js "color: #000;") ++ nl ++
  indent 12 (js "}") ++ nl ++
  indent 12 (js "input, textarea, select {") ++ nl ++
  indent 14 (js "font-family: 'Segoe UI', Arial, sans-serif;") ++ nl ++
  indent 14 (js "font-size: 12pt;") ++ nl ++
  indent 14 (js "color: #000;") ++ nl ++
  indent 14 (js "border: none;") ++ nl ++
  indent 12 (js "}") ++ nl ++
  indent 12 (js "table { border-collapse: collapse; width: 100%; }") ++ nl ++
  indent 12 (js "td, th { border: 1px solid #000; padding: 8px; word-wrap: break-word; white-space: pre-wrap; }") ++ nl ++
  indent 10 (js "</style>").

Definition bodyElement (html : jsstring) : jsstring :=
  js "<body>" ++ html ++ js "</body>".

(** The template literal of lines 110-136. *)
Definition documentShell (title html : jsstring) : jsstring :=
  nl ++
  indent 6 (js "<!DOCTYPE html>") ++ nl ++
  indent 6 (js "<html>") ++ nl ++
  indent 8 (js "<head>") ++ nl ++
  indent 10 charsetDeclaration ++ nl ++
  indent 10 (titleElement title) ++ nl ++
  indent 10 defaultStylesheet ++ nl ++
  indent 8 (js "</head>") ++ nl ++
  indent 8 (bodyElement html) ++ nl ++
  indent 6 (js "</html>") ++ nl ++
  indent 4 [].

(** [html.includes("<html") ? html : `...`] on a string [html]. *)
Definition fullHtml (html title : jsstring) : jsstring :=
  if includes html rootMarker then html else documentShell title html.

(** Line 151 and 152: the name the file is stored under. *)
Definition safeNameBase (reportType : value) (title : jsstring) : jsstring :=
  keepNameChars
    (if truthy reportType && isString reportType
     then ToString reportType
     else collapseSpaces title).

Definition makeFilename (reportType : value) (title : jsstring) (now : Z) : jsstring :=
  safeNameBase reportType title ++ js "-" ++ Number_toString now ++ js ".pdf".

(** ** Object identifiers *)

Module ObjectId.

(** An [ObjectId] is twelve bytes, here the number they spell. *)
Abbreviation t := N (only parsing).

Definition modulus : N := 2 ^ 96.

(** [new ObjectId()]: twelve bytes drawn from the clock, a per-process
    random value and a counter, given here by the caller. *)
Definition generate (seed : N) : t := (seed mod modulus)%N.

Definition hexDigit (d : N) : N := (if d <? 10 then 48 + d else 87 + d)%N.

Fixpoint toHex (len : nat) (n : N) (acc : jsstring) : jsstring :=
  match len with
  | O => acc
  | S len' => toHex len' (n / 16)%N (hexDigit (n mod 16)%N :: acc)
  end.

(** [id.toHexString()], which is also how an id is written in JSON. *)
Definition toHexString (id : t) : jsstring := toHex 24 id [].

Definition hexValue (c : N) : option N :=
  if ((48 <=? c) && (c <=? 57))%N then Some (c - 48)%N
  else if ((97 <=? c) && (c <=? 102))%N then Some (c - 87)%N
  else if ((65 <=? c) && (c <=? 70))%N then Some (c - 55)%N
  else None.

Definition isHexDigit (c : N) : bool :=
  match hexValue c with Some _ => true | None => false end.

Definition fromHex (s : jsstring) : N :=
  fold_left (fun acc c => acc * 16 + default 0 (hexValue c))%N s 0%N.

(** [new ObjectId(s)] on a string: a string of 24 hexadecimal digits is
    read as an id, any other string makes the constructor throw
    ([None]). *)
Definition ofString (s : jsstring) : option t :=
  if (length s =? 24)%nat && forallb isHexDigit s
  then Some (fromHex s) else None.

End ObjectId.

(** ** Requests, responses and the state the handlers act on *)

(** One document of [reports.files], with the bytes of its chunks;
    [metadata_folder] is the value the handler gave as [metadata.folder]. *)
Record FileDoc := {
  filename : jsstring;
  metadata_folder : value;
  uploadDate : Z;
  content : list byte
}.

(** An element of the array [/all-reports] answers with. *)
Record ReportEntry := {
  entry_fileId : ObjectId.t;
  entry_filename : jsstring;
  entry_folder : value;
  entry_uploadDate : Z
}.

Inductive Body :=
  | JError (error : jsstring)
  | JFileId (fileId : ObjectId.t)
  | JMessage (message : jsstring)
  | JReports (reportList : list ReportEntry)
  | PdfStream (bytes : list byte).

Record Response := { status : Z; body : Body }.

Record PdfOptions := {
  format : jsstring;
  printBackground : bool;
  margin_top : jsstring;
  margin_bottom : jsstring;
  margin_left : jsstring;
  margin_right : jsstring
}.

(** The calls the submit handler makes on Playwright. *)
Inductive Call :=
  | Launch (headless : bool)
  | NewContext
  | NewPage
  | SetContent (html : jsstring) (waitUntil : jsstring)
  | EmulateMedia (media : jsstring)
  | WaitForTimeout (ms : Z)
  | Pdf (options : PdfOptions)
  | Close.

Inductive Error :=
  | TypeError (what : jsstring)
  | EngineError (call : Call)
  | BSONError
  | FileNotFound (id : ObjectId.t)
  | UploadFailed.

(** What the surroundings decide during one request: which Playwright
    calls reject, the buffer [page.pdf] resolves to, the clock, the bytes
    of the next [ObjectId] and whether the upload stream reports an
    error. *)
Record Env := {
  rejects : Call -> bool;
  pdfBuffer : list byte;
  dateNow : Z;
  objectIdSeed : N;
  uploadClock : Z;
  uploadError : bool
}.

(** The state shared by the handlers: the bucket, the calls made on the
    rendering engine, the number of browser processes that are running,
    the responses written and the errors emitted where nothing listens. *)
Record World := {
  files : gmap N FileDoc;
  calls : list Call;
  openBrowsers : nat;
  sent : list Response;
  unhandled : list Error
}.

Definition emptyWorld : World :=
  {| files := ∅; calls := []; openBrowsers := 0; sent := []; unhandled := [] |}.

(** ** A state and exception monad for the handlers *)

Inductive outcome (A : Type) :=
  | Returns (a : A)
  | Throws (e : Error).
Arguments Returns {A} a.
Arguments Throws {A} e.

Definition M (A : Type) : Type := World -> outcome A * World.

Definition ret {A} (a : A) : M A := fun w => (Returns a, w).

Definition bind {A B} (m : M A) (k : A -> M B) : M B :=
  fun w => match m w with
           | (Returns a, w') => k a w'
           | (Throws e, w') => (Throws e, w')
           end.

Definition throw {A} (e : Error) : M A := fun w => (Throws e, w).

(** [try { m } catch (err) { h err }]. *)
Definition try_catch {A} (m : M A) (h : Error -> M A) : M A :=
  fun w => match m w with
           | (Returns a, w') => (Returns a, w')
           | (Throws e, w') => h e w'
           end.

Declare Scope handler_scope.
Delimit Scope handler_scope with handler.
Notation "x <- m ;; k" := (bind m (fun x => k))
  (at level 100, m at next level, right associativity) : handler_scope.
Notation "m ;; k" := (bind m (fun _ => k))
  (at level 100, right associativity) : handler_scope.
Local Open Scope handler_scope.

(** [res.status(code).json(b)]; [res.json(b)] is [send 200 b]. *)
Definition send (code : Z) (b : Body) : M unit :=
  fun w => (Returns tt,
            {| files := files w; calls := calls w; openBrowsers := openBrowsers w;
               sent := sent w ++ [ {| status := code; body := b |} ];
               unhandled := unhandled w |}).

(** An error event on a stream that has no listener for it. *)
Definition emitUnhandled (e : Error) : M unit :=
  fun w => (Returns tt,
            {| files := files w; calls := calls w; openBrowsers := openBrowsers w;
               sent := sent w; unhandled := unhandled w ++ [e] |}).

(** ** The rendering engine *)

(** How a call that went through changes the number of running
    browsers. *)
Definition browsersAfter (c : Call) (n : nat) : nat :=
  match c with
  | Launch _ => S n
  | Close => Nat.pred n
  | _ => n
  end.

(** [await] on one Playwright call: the call is made, and it either
    resolves or rejects. *)
Definition await_call (env : Env) (c : Call) : M unit :=
  fun w =>
    if rejects env c
    then (Throws (EngineError c),
          {| files := files w; calls := calls w ++ [c]; openBrowsers := openBrowsers w;
             sent := sent w; unhandled := unhandled w |})
    else (Returns tt,
          {| files := files w; calls := calls w ++ [c];
             openBrowsers := browsersAfter c (openBrowsers w);
             sent := sent w; unhandled := unhandled w |}).

(** The options of lines 142-146. *)
Definition pdfOptions : PdfOptions :=
  {| format := js "A4"; printBackground := true;
     margin_top := js "20mm"; margin_bottom := js "20mm";
     margin_left := js "15mm"; margin_right := js "15mm" |}.

(** [await page.pdf(options)]. *)
Definition page_pdf (env : Env) (options : PdfOptions) : M (list byte) :=
  await_call env (Pdf options) ;; ret (pdfBuffer env).

(** ** The GridFS bucket *)

(** What the driver writes for the field [metadata.folder]: a number
    is written as it is and a function-valued field is left out of the
    document, so that it reads back as [undefined].  [Object.prototype]
    has no enumerable property of its own and is written as an empty
    document; [VObjectPrototype] stands for what reads back, which is
    truthy, prints and compares as that empty object does. *)
Definition storedFolder (folder : value) : value :=
  match folder with
  | VNative _ => VUndefined
  | v => v
  end.

(** [bucket.openUploadStream(name, { metadata: { folder } })] followed by
    [uploadStream.end(buffer, callback)]: the stream takes a new id, and
    when it finishes the file and its chunks are in the bucket.  An id
    that is already there or an error of the stream leaves no file and
    gives the callback an error ([None]); the stream also emits that
    error, and the handler has set no listener for it. *)
Definition bucket_upload (env : Env) (name : jsstring) (folder : value)
    (buffer : list byte) : M (option ObjectId.t) :=
  fun w =>
    let id := ObjectId.generate (objectIdSeed env) in
    if uploadError env || bool_decide (is_Some (files w !! id))
    then (Returns None,
          {| files := files w; calls := calls w; openBrowsers := openBrowsers w;
             sent := sent w; unhandled := unhandled w ++ [UploadFailed] |})
    else (Returns (Some id),
          {| files := <[ id := {| filename := name;
                                  metadata_folder := storedFolder folder;
                                  uploadDate := uploadClock env;
                                  content := buffer |} ]> (files w);
             calls := calls w; openBrowsers := openBrowsers w;
             sent := sent w; unhandled := unhandled w |}).

(** [await bucket.delete(id)]: the file and its chunks go; the call
    rejects when no file has that id. *)
Definition bucket_delete (id : ObjectId.t) : M unit :=
  fun w =>
    match files w !! id with
    | Some _ =>
        (Returns tt,
         {| files := delete id (files w);
            calls := calls w; openBrowsers := openBrowsers w;
            sent := sent w; unhandled := unhandled w |})
    | None => (Throws (FileNotFound id), w)
    end.

(** [new ObjectId(s)]. *)
Definition new_ObjectId (s : jsstring) : M ObjectId.t :=
  match ObjectId.ofString s with
  | Some id => ret id
  | None => throw BSONError
  end.

(** ** [POST /submit-report] *)

Record SubmitBody := {
  html : value;
  reportType : value;
  folder : value;
  reportTitle : value
}.

(** Line 110 on the value of the field: only a string has [includes]. *)
Definition fullHtmlOf (v : value) (title : jsstring) : M jsstring :=
  match v with
  | VStr s => ret (fullHtml s title)
  | _ => throw (TypeError (js "html.includes is not a function"))
  end.

Definition submit_report (env : Env) (req : SubmitBody) : M unit :=
  if negb (truthy (html req)) then send 400 (JError (js "Missing HTML"))
  else
    let folderNumber := resolveFolder (reportType req) (folder req) in
    if negb (truthy folderNumber)
    then send 400 (JError (js "Missing or invalid reportType/folder (must map to 1-15)"))
    else
      try_catch
        (await_call env (Launch true) ;;
         await_call env NewContext ;;
         await_call env NewPage ;;
         let title := resolvedTitle (reportTitle req) (reportType req) in
         doc <- fullHtmlOf (html req) title ;;
         await_call env (SetContent doc (js "networkidle")) ;;
         await_call env (EmulateMedia (js "screen")) ;;
         await_call env (WaitForTimeout 500) ;;
         pdf <- page_pdf env pdfOptions ;;
         await_call env Close ;;
         let name := makeFilename (reportType req) title (dateNow env) in
         uploaded <- bucket_upload env name folderNumber pdf ;;
         match uploaded with
         | None => send 500 (JError (js "Failed to upload PDF"))
         | Some id => send 200 (JFileId id)
         end)
        (fun _ => send 500 (JError (js "Failed to generate PDF"))).

(** ** [GET /all-reports] *)

(** The filter of line 177 on one file. *)
Definition matchesFilter (f : option Z) (d : FileDoc) : bool :=
  match f with
  | Some n => bool_decide (metadata_folder d = VNum n)
  | None => true
  end.

(** [sort({ uploadDate: -1 })]. *)
Definition newestFirst (a b : ObjectId.t * FileDoc) : Prop :=
  uploadDate b.2 <= uploadDate a.2.

#[global] Instance newestFirst_dec a b : Decision (newestFirst a b).
Proof. unfold newestFirst. apply _. Defined.

Definition findFiles (f : option Z) (w : World) : list (ObjectId.t * FileDoc) :=
  merge_sort newestFirst
    (List.filter (fun p => matchesFilter f p.2) (map_to_list (files w))).

Definition toEntry (p : ObjectId.t * FileDoc) : ReportEntry :=
  {| entry_fileId := p.1;
     entry_filename := filename p.2;
     entry_folder := or_else (metadata_folder p.2) VNull;
     entry_uploadDate := uploadDate p.2 |}.

(** The handler, on the value of [req.query.folder]; the collection is
    taken to answer. *)
Definition all_reports (queryFolder : value) : M unit :=
  fun w =>
    send 200 (JReports (List.map toEntry (findFiles (parseInt queryFolder 0) w))) w.

(** ** [GET /get-pdf/:fileId] *)

(** [bucket.openDownloadStream(id)] piped into the response: the bytes of
    the file, or, when no file has that id, an error on the stream, which
    has no listener. *)
Definition pipeDownload (id : ObjectId.t) : M unit :=
  fun w =>
    match files w !! id with
    | Some d => send 200 (PdfStream (content d)) w
    | None => emitUnhandled (FileNotFound id) w
    end.

Definition get_pdf (fileId : jsstring) : M unit :=
  try_catch
    (id <- new_ObjectId fileId ;;
     pipeDownload id)
    (fun _ => send 500 (JError (js "Failed to retrieve PDF"))).

(** ** [DELETE /delete-report/:fileId] *)

Definition delete_report (fileId : jsstring) : M unit :=
  try_catch
    (id <- new_ObjectId fileId ;;
     bucket_delete id ;;
     send 200 (JMessage (js "Report deleted successfully")))
    (fun _ => send 500 (JError (js "Failed to delete report"))).

(** ** Readings of a run *)

(** The world a handler leaves. *)
Definition after {A} (m : M A) (w : World) : World := (m w).2.

(** The calls a submission makes on the rendering engine. *)
Definition callsOf (env : Env) (req : SubmitBody) : list Call :=
  calls (after (submit_report env req) emptyWorld).

(** The media type in force when the page is captured: the argument of
    the last [emulateMedia] before the first [pdf]. *)
Fixpoint mediaAtCapture (cs : list Call) (current : option jsstring) : option jsstring :=
  match cs with
  | [] => None
  | EmulateMedia m :: cs' => mediaAtCapture cs' (Some m)
  | Pdf _ :: _ => current
  | _ :: cs' => mediaAtCapture cs' current
  end.

Definition isPdfCall (c : Call) : bool :=
  match c with Pdf _ => true | _ => false end.
Definition isLaunchCall (c : Call) : bool :=
  match c with Launch _ => true | _ => false end.
Definition isCloseCall (c : Call) : bool :=
  match c with Close => true | _ => false end.

(** The ids a list of report entries mentions. *)
Definition entryIds (b : Body) : list ObjectId.t :=
  match b with
  | JReports l => List.map entry_fileId l
  | _ => []
  end.

(** An environment in which every call goes through and the capture is
    the five bytes of the PDF signature. *)
Definition calmEnv : Env :=
  {| rejects := fun _ => false;
     pdfBuffer := ["%"; "P"; "D"; "F"; "-"]%byte;
     dateNow := 1700000000000;
     objectIdSeed := 7;
     uploadClock := 1700000000001;
     uploadError := false |}.

(** The same, with a navigation that times out. *)
Definition stalledEnv : Env :=
  {| rejects := fun c => match c with SetContent _ _ => true | _ => false end;
     pdfBuffer := ["%"; "P"; "D"; "F"; "-"]%byte;
     dateNow := 1700000000000;
     objectIdSeed := 7;
     uploadClock := 1700000000001;
     uploadError := false |}.

Definition sampleBody : SubmitBody :=
  {| html := VStr (js "<p>x</p>"); reportType := VStr (js "liquid_ir");
     folder := VUndefined; reportTitle := VUndefined |}.

(** A submission whose [reportType] names a member every object inherits. *)
Definition inheritedKeyBody : SubmitBody :=
  {| html := VStr (js "<p>x</p>"); reportType := VStr (js "constructor");
     folder := VUndefined; reportTitle := VUndefined |}.

(** A submission that names no report type and a folder out of range. *)
Definition unclassifiedBody : SubmitBody :=
  {| html := VStr (js "<p>x</p>"); reportType := VUndefined;
     folder := VNum 16; reportTitle := VUndefined |}.

(** ** Tokens, the login and the guard of the protected routes *)

(** The payload [generateToken] signs. *)
Record Claims := { claim_id : Z; claim_username : jsstring }.

(** [jsonwebtoken] as the process uses it, the secret and the clock
    included: [jwt.sign(payload, secret, { expiresIn: "1h" })], and
    [jwt.verify(token, secret, callback)], which hands the callback the
    payload or an error ([None]). *)
Record Jwt := {
  jwt_sign : Claims -> jsstring;
  jwt_verify : jsstring -> option Claims
}.

Record User := { user_id : Z; user_username : jsstring; user_password : jsstring }.

(** Line 51. *)
Definition users : list User :=
  [ {| user_id := 1; user_username := js "admin"; user_password := js "admin123" |} ].

Definition generateToken (jwt : Jwt) (user : User) : jsstring :=
  jwt_sign jwt {| claim_id := user_id user; claim_username := user_username user |}.

(** [s === v] for a string [s] of the program and a value of the request. *)
Definition strictEquals (s : jsstring) (v : value) : bool :=
  bool_decide (v = VStr s).

Inductive LoginBody :=
  | LoginError (error : jsstring)
  | LoginToken (token : jsstring).

(** [POST /admin-login] on the two fields of the body; the handler reads
    and writes no shared state, so it is the function from the fields to
    the status and the body of its answer. *)
Definition admin_login (jwt : Jwt) (username password : value) : Z * LoginBody :=
  match List.find (fun u => strictEquals (user_username u) username) users with
  | Some user =>
      if negb (strictEquals (user_password user) password)
      then (401, LoginError (js "Invalid credentials"))
      else (200, LoginToken (generateToken jwt user))
  | None => (401, LoginError (js "Invalid credentials"))
  end.

(** [GET /]. *)
Definition root_greeting : Z * jsstring :=
  (200, js "Welcome to the Report Uploader API!").

(** [s.split(sep)] for a separator of one code unit. *)
Fixpoint split (sep : N) (s : jsstring) : list jsstring :=
  match s with
  | [] => [[]]
  | c :: s' =>
      if (c =? sep)%N then [] :: split sep s'
      else match split sep s' with
           | piece :: pieces => (c :: piece) :: pieces
           | [] => [[c]]
           end
  end.

(** [req.headers.authorization?.split(" ")[1]]; [None] is [undefined]. *)
Definition bearerToken (authorization : option jsstring) : option jsstring :=
  match authorization with
  | Some h => match split 32 h with
              | _ :: token :: _ => Some token
              | _ => None
              end
  | None => None
  end.

(** [authMiddleware] in front of a handler [next]. *)
Definition authMiddleware (jwt : Jwt) (authorization : option jsstring)
    (next : M unit) : M unit :=
  match bearerToken authorization with
  | Some token =>
      if isEmpty token then send 401 (JError (js "No token"))
      else match jwt_verify jwt token with
           | None => send 401 (JError (js "Invalid token"))
           | Some _ => next
           end
  | None => send 401 (JError (js "No token"))
  end.

(** The requests to the routes that act on the shared state. *)
Inductive Request :=
  | PostSubmitReport (authorization : option jsstring) (body : SubmitBody)
  | GetAllReports (authorization : option jsstring) (queryFolder : value)
  | GetPdf (fileId : jsstring)
  | DeleteReport (authorization : option jsstring) (fileId : jsstring).

(** The route table of lines 81, 174, 198 and 211. *)
Definition handle (jwt : Jwt) (env : Env) (r : Request) : M unit :=
  match r with
  | PostSubmitReport auth b => authMiddleware jwt auth (submit_report env b)
  | GetAllReports auth q => authMiddleware jwt auth (all_reports q)
  | GetPdf fileId => get_pdf fileId
  | DeleteReport auth fileId => authMiddleware jwt auth (delete_report fileId)
  end.

(** Requests handled one after the other, each in its own surroundings. *)
Fixpoint serve (jwt : Jwt) (rs : list (Env * Request)) (w : World) : World :=
  match rs with
  | [] => w
  | (env, r) :: rs' => serve jwt rs' (after (handle jwt env r) w)
  end.

(** The [Authorization] header of a request to a guarded route; the
    download route has no guard. *)
Definition guardedBy (r : Request) : option (option jsstring) :=
  match r with
  | PostSubmitReport auth _ | GetAllReports auth _ | DeleteReport auth _ => Some auth
  | GetPdf _ => None
  end.

(** Whether the guard lets a request with this header through. *)
Definition authorized (jwt : Jwt) (authorization : option jsstring) : bool :=
  match bearerToken authorization with
  | Some token =>
      negb (isEmpty token) &&
      match jwt_verify jwt token with Some _ => true | None => false end
  | None => false
  end.

(** [p] occurs in [s]. *)
Definition occursIn (p s : jsstring) : Prop :=
  exists a b, s = a ++ p ++ b.

(** The code units [safeNameBase] lets through. *)
Definition isNameChar (c : N) : bool :=
  isWordChar c || (c =? 45)%N || (c =? 95)%N || (c =? 46)%N.

(** What holds of every file a submission stores: its name is made of
    name characters and ends in [.pdf], its folder, when it is a number,
    lies between 1 and 15, and its id is twelve bytes. *)
Definition wellStored (id : N) (d : FileDoc) : Prop :=
  Forall (fun c => isNameChar c = true) (filename d) /\
  (exists base, filename d = base ++ js ".pdf") /\
  (forall n, metadata_folder d = VNum n -> 1 <= n <= 15) /\
  (id < ObjectId.modulus)%N.

(** A toy token scheme for the evaluations: the token is the user name
    behind a fixed prefix. *)
Definition toyJwt : Jwt :=
  {| jwt_sign := fun c => js "jwt." ++ claim_username c;
     jwt_verify := fun t =>
       if startsWith (js "jwt.") t
       then Some {| claim_id := 1; claim_username := skipn 4 t |}
       else None |}.

(** * Properties *)

(** ** Strings *)

Lemma digit_bounds c : isDecimalDigit c = true -> (48 <= c <= 57)%N.
Proof.
  unfold isDecimalDigit. intros H. apply andb_true_iff in H as [H1 H2].
  apply N.leb_le in H1, H2. lia.
Qed.

Lemma digit_not_space c : isDecimalDigit c = true -> isWhiteSpace c = false.
Proof.
  intros H. apply digit_bounds in H. unfold isWhiteSpace.
  repeat match goal with
    | |- context [(c =? ?k)%N] =>
        replace (c =? k)%N with false by (symmetry; apply N.eqb_neq; lia)
    | |- context [(c <=? ?k)%N] =>
        replace (c <=? k)%N with false by (symmetry; apply N.leb_gt; lia)
    | |- context [(?k <=? c)%N] =>
        replace (k <=? c)%N with false by (symmetry; apply N.leb_gt; lia)
    end.
  rewrite ?andb_false_r. reflexivity.
Qed.

Lemma digit_not_sign c :
  isDecimalDigit c = true -> ((c =? 43) || (c =? 45))%N = false /\ (c =? 45)%N = false.
Proof.
  intros H. apply digit_bounds in H.
  replace (c =? 43)%N with false by (symmetry; apply N.eqb_neq; lia).
  replace (c =? 45)%N with false by (symmetry; apply N.eqb_neq; lia).
  split; reflexivity.
Qed.

Lemma isRadixDigit_10 c : isRadixDigit 10 c = isDecimalDigit c.
Proof.
  unfold isRadixDigit, digitValue, isDecimalDigit.
  destruct (N.leb_spec 48 c), (N.leb_spec c 57); simpl;
    repeat match goal with
      | |- context [(?a <=? ?b)%N] => destruct (N.leb_spec a b); simpl
      end; try reflexivity; lia.
Qed.

Lemma dropWhile_all {A} (p : A -> bool) l :
  Forall (fun x => p x = true) l -> forall r, dropWhile p (l ++ r) = dropWhile p r.
Proof. induction 1 as [|x l Hx _ IH]; intros r; simpl; [|rewrite Hx]; auto. Qed.

Lemma dropWhile_stop {A} (p : A -> bool) x l :
  p x = false -> dropWhile p (x :: l) = x :: l.
Proof. intros H. simpl. now rewrite H. Qed.

Lemma dropWhile_nil {A} (p : A -> bool) l :
  dropWhile p l = [] -> Forall (fun x => p x = true) l.
Proof.
  induction l as [|x l IH]; simpl; [constructor|].
  destruct (p x) eqn:Hx; [|discriminate]. intros H. constructor; auto.
Qed.

Lemma dropWhile_head {A} (p : A -> bool) l x r :
  dropWhile p l = x :: r -> p x = false.
Proof.
  induction l as [|y l IH]; simpl; [discriminate|].
  destruct (p y) eqn:Hy; [assumption|]. intros [= -> _]. assumption.
Qed.

Lemma takeWhile_prefix {A} (p : A -> bool) l r :
  Forall (fun x => p x = true) l ->
  match r with [] => True | x :: _ => p x = false end ->
  takeWhile p (l ++ r) = l.
Proof.
  intros Hl Hr. induction Hl as [|x l Hx _ IH]; simpl.
  - destruct r as [|y r]; simpl; [reflexivity|now rewrite Hr].
  - now rewrite Hx, IH.
Qed.

(** Trimming leaves nothing only when every code unit is white space. *)
Lemma trim_empty s :
  isEmpty (trim s) = true -> Forall (fun c => isWhiteSpace c = true) s.
Proof.
  unfold trim, trimEnd, trimStart. intros H.
  destruct (dropWhile isWhiteSpace s) as [|x r] eqn:Hs.
  - now apply dropWhile_nil.
  - pose proof (dropWhile_head _ _ _ _ Hs) as Hx.
    destruct (rev (dropWhile isWhiteSpace (rev (x :: r)))) eqn:Hr; [|discriminate].
    apply (f_equal (@rev N)) in Hr. rewrite rev_involutive in Hr. simpl in Hr.
    apply dropWhile_nil in Hr.
    assert (In x (rev (x :: r))) as Hin by (apply (proj1 (in_rev _ _)); left; reflexivity).
    rewrite Forall_forall in Hr. apply list_elem_of_In in Hin.
    rewrite (Hr _ Hin) in Hx. discriminate.
Qed.

(** [parseInt] in radix 10 reads the digits that follow the leading white
    space and stops at the first code unit that is not a digit. *)
Lemma parseInt_decimal_prefix ws ds rest :
  Forall (fun c => isWhiteSpace c = true) ws ->
  ds <> [] ->
  Forall (fun c => isDecimalDigit c = true) ds ->
  match rest with [] => True | c :: _ => isDecimalDigit c = false end ->
  parseInt (VStr (ws ++ ds ++ rest)) 10 = Some (digitsValue 10 ds).
Proof.
  intros Hws Hne Hds Hrest.
  destruct ds as [|d ds]; [congruence|].
  pose proof (Forall_inv Hds) as Hd.
  unfold parseInt, trimStart. simpl ToString.
  rewrite (dropWhile_all _ _ Hws).
  change ((d :: ds) ++ rest) with (d :: (ds ++ rest)).
  rewrite (dropWhile_stop _ _ _ (digit_not_space _ Hd)).
  destruct (digit_not_sign _ Hd) as [-> ->].
  change (negb (10 =? 0) && ((10 <? 2) || (36 <? 10))) with false.
  change ((10 =? 0) || (10 =? 16)) with false.
  cbv beta iota zeta. simpl andb. cbv iota.
  change (if 10 =? 0 then 10 else 10) with 10.
  change (d :: ds ++ rest) with ((d :: ds) ++ rest).
  rewrite takeWhile_prefix.
  - simpl isEmpty. cbv iota. now rewrite Z.mul_1_l.
  - eapply Forall_impl; [exact Hds|]. intros c Hc. simpl. now rewrite isRadixDigit_10.
  - destruct rest; [exact I|]. now rewrite isRadixDigit_10.
Qed.

(** ** The folder classifier *)

Lemma reportTypeToFolder_keys_NoDup : NoDup reportTypeToFolder_entries.*1.
Proof. apply (bool_decide_unpack _). vm_compute. exact I. Qed.

(** The own properties of the object are the entries of the literal. *)
Lemma reportTypeToFolder_lookup k n :
  reportTypeToFolder !! k = Some n <-> (k, n) ∈ reportTypeToFolder_entries.
Proof.
  unfold reportTypeToFolder. symmetry.
  apply elem_of_list_to_map, reportTypeToFolder_keys_NoDup.
Qed.

(** Every entry maps a non-empty key to a folder between 1 and 15. *)
Lemma reportTypeToFolder_entries_range :
  Forall (fun p => p.1 <> [] /\ 1 <= p.2 <= 15) reportTypeToFolder_entries.
Proof. apply (bool_decide_unpack _). vm_compute. exact I. Qed.

Lemma reportTypeToFolder_range k n :
  reportTypeToFolder !! k = Some n -> k <> [] /\ 1 <= n <= 15.
Proof.
  intros H. apply reportTypeToFolder_lookup in H.
  pose proof reportTypeToFolder_entries_range as HF.
  rewrite Forall_forall in HF. exact (HF _ H).
Qed.

(** No folder is named by two keys. *)
Lemma reportTypeToFolder_injective k1 k2 n :
  reportTypeToFolder !! k1 = Some n -> reportTypeToFolder !! k2 = Some n -> k1 = k2.
Proof.
  intros H1 H2.
  apply reportTypeToFolder_lookup in H1. apply reportTypeToFolder_lookup in H2.
  assert (NoDup reportTypeToFolder_entries.*2) as HN
    by (apply (bool_decide_unpack _); vm_compute; exact I).
  apply list_elem_of_lookup in H1 as [i Hi]. apply list_elem_of_lookup in H2 as [j Hj].
  assert (i = j) as ->.
  { eapply (NoDup_lookup _ i j n HN); rewrite list_lookup_fmap.
    - now rewrite Hi. - now rewrite Hj. }
  congruence.
Qed.

Lemma getProperty_own k n :
  reportTypeToFolder !! k = Some n -> getProperty reportTypeToFolder (VStr k) = VNum n.
Proof. intros H. unfold getProperty. simpl ToString. now rewrite H. Qed.

(** When the report type selects nothing, only the folder decides. *)
Lemma resolveFolder_by_folder ty fo :
  truthy ty && truthy (getProperty reportTypeToFolder ty) = false ->
  resolveFolder ty fo =
  if isNumber fo || (isString fo && negb (isEmpty (trim (ToString fo))))
  then match parseInt fo 10 with
       | Some f => if (1 <=? f) && (f <=? 15) then VNum f else VNull
       | None => VNull
       end
  else VNull.
Proof. intros H. unfold resolveFolder. now rewrite H. Qed.

(** With a report type that selects nothing and no folder that parses
    into 1..15 the classifier leaves [folderNumber] at [null]. *)
Lemma resolveFolder_rejects ty fo :
  truthy ty && truthy (getProperty reportTypeToFolder ty) = false ->
  (forall f, parseInt fo 10 = Some f -> ~ (1 <= f <= 15)) ->
  resolveFolder ty fo = VNull.
Proof.
  intros Hty Hfo. rewrite (resolveFolder_by_folder _ _ Hty).
  destruct (isNumber fo || _); [|reflexivity].
  destruct (parseInt fo 10) as [f|] eqn:Hp; [|reflexivity].
  destruct (Z.leb_spec 1 f), (Z.leb_spec f 15); simpl; try reflexivity.
  exfalso. apply (Hfo f eq_refl). lia.
Qed.

(** An own key wins over whatever the folder field holds. *)
Lemma resolveFolder_own_key k n fo :
  reportTypeToFolder !! k = Some n -> resolveFolder (VStr k) fo = VNum n.
Proof.
  intros H. destruct (reportTypeToFolder_range _ _ H) as [Hk Hn].
  unfold resolveFolder. rewrite (getProperty_own _ _ H).
  assert (truthy (VStr k) = true) as -> by (destruct k; [congruence|reflexivity]).
  assert (truthy (VNum n) = true) as ->
    by (simpl; destruct (Z.eqb_spec n 0); [lia|reflexivity]).
  reflexivity.
Qed.

(** C4: a report type that is a key of the taxonomy is classified to the
    folder the taxonomy gives it, a number between 1 and 15, whatever raw
    [folder] value comes with it. *)
Theorem taxonomy_key_takes_precedence (k : jsstring) (n : Z) (fo : value) :
  reportTypeToFolder !! k = Some n ->
  resolveFolder (VStr k) fo = VNum n /\ 1 <= n <= 15.
Proof.
  intros H. split.
  - now apply resolveFolder_own_key.
  - exact (proj2 (reportTypeToFolder_range _ _ H)).
Qed.

Lemma taxonomy_key_takes_precedence_witness :
  reportTypeToFolder !! js "hydrostatic_ir" = Some 4 /\
  resolveFolder (VStr (js "hydrostatic_ir")) (VNum 9) = VNum 4.
Proof.
  assert (reportTypeToFolder !! js "hydrostatic_ir" = Some 4) as H
    by (vm_compute; reflexivity).
  split; [exact H|].
  exact (proj1 (taxonomy_key_takes_precedence (js "hydrostatic_ir") 4 (VNum 9) H)).
Defined.

(** C5, at the input where the code departs from it: ["constructor"] is
    no key of the taxonomy and no folder is given, yet the lookup reaches
    the member inherited from [Object.prototype], [folderNumber] becomes
    that function, and the submission is rendered and stored instead of
    being answered with 400. *)
Theorem inherited_member_passes_classification :
  reportTypeToFolder !! js "constructor" = None /\
  resolveFolder (reportType inheritedKeyBody) (folder inheritedKeyBody)
    = VNative (js "constructor") /\
  let w := after (submit_report calmEnv inheritedKeyBody) emptyWorld in
  sent w = [ {| status := 200; body := JFileId 7%N |} ] /\
  existsb isLaunchCall (calls w) = true /\
  existsb isPdfCall (calls w) = true /\
  is_Some (files w !! 7%N).
Proof. vm_compute. repeat split. eauto. Qed.

Lemma folder_string_not_blank ws ds rest :
  ds <> [] ->
  Forall (fun c => isDecimalDigit c = true) ds ->
  isEmpty (trim (ws ++ ds ++ rest)) = false.
Proof.
  intros Hne Hds. destruct (isEmpty _) eqn:He; [|reflexivity]. exfalso.
  apply trim_empty in He.
  rewrite !Forall_app in He. destruct He as (_ & He & _).
  destruct ds as [|d ds]; [congruence|].
  apply Forall_inv in He. apply Forall_inv in Hds.
  rewrite (digit_not_space _ Hds) in He. discriminate.
Qed.

(** C10: a folder string made of optional white space, decimal digits
    that spell a number between 1 and 15, and then anything that does not
    start with a digit is never turned down, whatever the report type is;
    and when the report type selects nothing (it is absent, or it names
    no property of the taxonomy object) the submission is classified by
    the digits alone.  So ["7.9"] and ["7abc"] both go to folder 7. *)
Theorem folder_string_prefix_classifies :
  (forall (ty : value) (ws ds rest : jsstring),
      Forall (fun c => isWhiteSpace c = true) ws ->
      ds <> [] ->
      Forall (fun c => isDecimalDigit c = true) ds ->
      match rest with [] => True | c :: _ => isDecimalDigit c = false end ->
      1 <= digitsValue 10 ds <= 15 ->
      truthy (resolveFolder ty (VStr (ws ++ ds ++ rest))) = true /\
      (truthy ty && truthy (getProperty reportTypeToFolder ty) = false ->
       resolveFolder ty (VStr (ws ++ ds ++ rest)) = VNum (digitsValue 10 ds))) /\
  resolveFolder VUndefined (VStr (js "7.9")) = VNum 7 /\
  resolveFolder VUndefined (VStr (js "7abc")) = VNum 7 /\
  resolveFolder (VStr (js "no_such_type")) (VStr (js "7abc")) = VNum 7.
Proof.
  split; [|vm_compute; repeat split].
  intros ty ws ds rest Hws Hne Hds Hrest Hrange.
  assert (truthy ty && truthy (getProperty reportTypeToFolder ty) = false ->
          resolveFolder ty (VStr (ws ++ ds ++ rest)) = VNum (digitsValue 10 ds)) as Hsel.
  { intros Hty. rewrite (resolveFolder_by_folder _ _ Hty).
    rewrite (parseInt_decimal_prefix ws ds rest Hws Hne Hds Hrest).
    cbn [ToString isNumber isString orb andb].
    rewrite (folder_string_not_blank ws ds rest Hne Hds). cbn [negb].
    destruct (Z.leb_spec 1 (digitsValue 10 ds)), (Z.leb_spec (digitsValue 10 ds) 15);
      simpl; try reflexivity; lia. }
  split; [|exact Hsel].
  destruct (truthy ty && truthy (getProperty reportTypeToFolder ty)) eqn:Hty.
  - unfold resolveFolder. rewrite Hty.
    apply andb_true_iff in Hty. exact (proj2 Hty).
  - rewrite (Hsel eq_refl). simpl. destruct (Z.eqb_spec (digitsValue 10 ds) 0); [lia|reflexivity].
Qed.

Lemma folder_string_prefix_classifies_witness :
  resolveFolder VNull (VStr (js " 12px")) = VNum 12.
Proof.
  apply (proj1 folder_string_prefix_classifies VNull (js " ") (js "12") (js "px")).
  - repeat constructor.
  - discriminate.
  - repeat constructor.
  - reflexivity.
  - vm_compute. split; discriminate.
  - reflexivity.
Defined.

(** ** Numbers as folders *)

Ltac eval_digit :=
  match goal with
  | |- context [default 0 (digitValue (N_of_ascii ?c))] =>
      let v := eval vm_compute in (default 0 (digitValue (N_of_ascii c))) in
      change (default 0 (digitValue (N_of_ascii c))) with v
  end.

Lemma uint_digits d :
  Forall (fun c => isDecimalDigit c = true) (js (NilEmpty.string_of_uint d)).
Proof. induction d; cbn; constructor; try reflexivity; assumption. Qed.

Lemma uint_value_acc d : forall a,
  fold_left (fun acc c => acc * 10 + default 0 (digitValue c))
    (js (NilEmpty.string_of_uint d)) (Z.pos a)
  = Z.pos (Pos.of_uint_acc d a).
Proof.
  induction d; intros a; cbn [NilEmpty.string_of_uint Pos.of_uint_acc];
    [reflexivity|..];
    change (js (String ?c ?s)) with (N_of_ascii c :: js s);
    cbn [fold_left]; rewrite <- IHd; f_equal; eval_digit; lia.
Qed.

Lemma uint_value d :
  digitsValue 10 (js (NilEmpty.string_of_uint d)) = Z.of_N (Pos.of_uint d).
Proof.
  unfold digitsValue.
  induction d; cbn [NilEmpty.string_of_uint Pos.of_uint];
    [reflexivity|..];
    change (js (String ?c ?s)) with (N_of_ascii c :: js s);
    cbn [fold_left]; eval_digit; try exact IHd;
    cbn [Z.of_N]; rewrite <- uint_value_acc; reflexivity.
Qed.

Lemma uint_nonnil_string d :
  d <> Decimal.Nil ->
  NilZero.string_of_uint d = NilEmpty.string_of_uint d /\
  js (NilEmpty.string_of_uint d) <> [].
Proof. destruct d; intros H; try congruence; split; (reflexivity || discriminate). Qed.

(** The digits [Number::toString] prints for a positive integer. *)
Lemma positive_digits p :
  let ds := js (NilZero.string_of_uint (Pos.to_uint p)) in
  ds <> [] /\
  Forall (fun c => isDecimalDigit c = true) ds /\
  digitsValue 10 ds = Z.pos p.
Proof.
  destruct (uint_nonnil_string _ (Unsigned.to_uint_nonnil p)) as [-> Hne].
  cbv zeta. split; [exact Hne|]. split; [apply uint_digits|].
  rewrite uint_value, Unsigned.of_to. reflexivity.
Qed.

Lemma parseInt_of_string v :
  parseInt v 10 = parseInt (VStr (ToString v)) 10.
Proof. reflexivity. Qed.

(** A minus sign in front of the digits. *)
Lemma parseInt_negative_decimal ds :
  ds <> [] ->
  Forall (fun c => isDecimalDigit c = true) ds ->
  parseInt (VStr (45%N :: ds)) 10 = Some (- digitsValue 10 ds).
Proof.
  intros Hne Hds. unfold parseInt, trimStart. cbn [ToString].
  rewrite (dropWhile_stop isWhiteSpace 45%N ds eq_refl).
  change ((45 =? 43)%N || (45 =? 45)%N) with true.
  change (45 =? 45)%N with true.
  change (negb (10 =? 0) && ((10 <? 2) || (36 <? 10))) with false.
  change ((10 =? 0) || (10 =? 16)) with false.
  cbv beta iota zeta. cbn [andb]. cbv iota.
  change (if 10 =? 0 then 10 else 10) with 10.
  assert (takeWhile (isRadixDigit 10) ds = ds) as ->.
  { rewrite <- (app_nil_r ds) at 1. apply takeWhile_prefix; [|exact I].
    eapply Forall_impl; [exact Hds|]. intros c Hc. simpl. now rewrite isRadixDigit_10. }
  destruct ds as [|d ds]; [congruence|]. cbn [isEmpty]. cbv iota.
  generalize (digitsValue 10 (d :: ds)). intros v. f_equal; lia.
Qed.

(** [parseInt] reads an integer-valued number back from its decimal
    spelling. *)
Lemma parseInt_number z : Z.abs z < 10 ^ 21 -> parseInt (VNum z) 10 = Some z.
Proof.
  intros _. rewrite parseInt_of_string. cbn [ToString]. unfold Number_toString.
  destruct z as [|p|p]; [reflexivity|..]; cbn [Z.to_int NilZero.string_of_int];
    destruct (positive_digits p) as (Hne & Hds & Hv).
  - rewrite <- Hv.
    rewrite <- (app_nil_r (js (NilZero.string_of_uint (Pos.to_uint p)))) at 1.
    apply (parseInt_decimal_prefix [] _ []); [constructor|exact Hne|exact Hds|exact I].
  - change (js (String "-" ?s)) with (45%N :: js s).
    rewrite (parseInt_negative_decimal _ Hne Hds), Hv. reflexivity.
Qed.

(** A number as folder is taken when it lies between 1 and 15. *)
Lemma resolveFolder_number ty z :
  Z.abs z < 10 ^ 21 ->
  truthy ty && truthy (getProperty reportTypeToFolder ty) = false ->
  resolveFolder ty (VNum z) = if (1 <=? z) && (z <=? 15) then VNum z else VNull.
Proof.
  intros Hz Hty.
  rewrite (resolveFolder_by_folder _ _ Hty), (parseInt_number _ Hz).
  reflexivity.
Qed.

(** ** The title and the document *)

Lemma removeAll_spec c x s : x ∈ removeAll c s <-> x ∈ s /\ x <> c.
Proof.
  unfold removeAll. rewrite !list_elem_of_In, filter_In.
  destruct (N.eqb_spec x c); simpl; intuition congruence.
Qed.

Lemma removeAll_id c s : c ∉ s -> removeAll c s = s.
Proof.
  unfold removeAll. induction s as [|x s IH]; simpl; [reflexivity|].
  intros H. rewrite not_elem_of_cons in H. destruct H as [Hx Hs].
  destruct (N.eqb_spec x c); [congruence|]. simpl. now rewrite IH.
Qed.

(** The text the title is taken from. *)
Lemma resolvedTitle_source rt ty :
  resolvedTitle rt ty =
  slice0 150 (removeAll 60 (ToString
    (if truthy rt then rt else if truthy ty then ty else VStr (js "Report")))).
Proof. reflexivity. Qed.

(** A text without [<] and within 150 code units is the title as it
    stands, closing angle brackets included. *)
Lemma resolvedTitle_unchanged rt ty :
  let text := ToString (or_else rt (or_else ty (VStr (js "Report")))) in
  (60%N ∉ text) -> (length text <= 150)%nat -> resolvedTitle rt ty = text.
Proof.
  intros text H60 Hlen. unfold resolvedTitle, slice0. fold text.
  rewrite (removeAll_id _ _ H60). now apply firstn_all2.
Qed.

(** C3 as the specification words it does not hold: the title [a>b]
    comes out with its closing angle bracket. *)
Lemma resolvedTitle_keeps_closing_bracket :
  ~ (forall rt ty : value,
        (60%N ∉ resolvedTitle rt ty) /\ (62%N ∉ resolvedTitle rt ty) /\
        (length (resolvedTitle rt ty) <= 150)%nat).
Proof.
  intros H. destruct (H (VStr (js "a>b")) VUndefined) as (_ & H62 & _).
  apply H62. apply (bool_decide_unpack _). vm_compute. exact I.
Qed.

Lemma resolvedTitle_no_opening_bracket rt ty : 60%N ∉ resolvedTitle rt ty.
Proof.
  unfold resolvedTitle, slice0. intros H.
  apply elem_of_take in H as (i & Hi & _).
  assert (60%N ∈ removeAll 60 (ToString (or_else rt (or_else ty (VStr (js "Report"))))))
    as Hin by (apply list_elem_of_lookup; eauto).
  apply removeAll_spec in Hin. destruct Hin as [_ Hin]. congruence.
Qed.

Lemma resolvedTitle_length rt ty : (length (resolvedTitle rt ty) <= 150)%nat.
Proof. unfold resolvedTitle, slice0. rewrite length_firstn. apply Nat.le_min_l. Qed.

(** C3, amended: whatever the title is taken from, the computed title
    has no opening angle bracket [<] and at most 150 code units. *)
Theorem resolvedTitle_safe (rt ty : value) :
  (60%N ∉ resolvedTitle rt ty) /\ (length (resolvedTitle rt ty) <= 150)%nat.
Proof.
  split; [apply resolvedTitle_no_opening_bracket|apply resolvedTitle_length].
Qed.

Lemma startsWith_app p r : startsWith p (p ++ r) = true.
Proof. induction p as [|c p IH]; [reflexivity|]. simpl. now rewrite N.eqb_refl. Qed.

Lemma includes_here p r : includes (p ++ r) p = true.
Proof.
  destruct (p ++ r) eqn:E; simpl; rewrite <- E, startsWith_app; reflexivity.
Qed.

Lemma includes_later a s p : includes s p = true -> includes (a ++ s) p = true.
Proof.
  intros H. induction a as [|c a IH]; [exact H|].
  simpl. rewrite IH. apply orb_true_r.
Qed.

Ltac find_piece :=
  unfold documentShell, indent; rewrite <- ?app_assoc;
  repeat first [ apply includes_here | apply includes_later ].

Lemma documentShell_has_root title html :
  includes (documentShell title html) rootMarker = true.
Proof.
  unfold documentShell, indent. rewrite <- ?app_assoc.
  do 5 apply includes_later.
  change (js "<html>") with (rootMarker ++ js ">"). rewrite <- app_assoc.
  apply includes_here.
Qed.

Lemma startsWith_spec p s :
  startsWith p s = true <-> exists b, s = p ++ b.
Proof.
  revert s. induction p as [|c p IH]; intros s.
  - split; [intros _; exists s; reflexivity|reflexivity].
  - destruct s as [|d s]; cbn [startsWith].
    + split; [discriminate|intros [b Hb]; discriminate].
    + rewrite andb_true_iff, N.eqb_eq, IH. split.
      * intros [-> [b ->]]. exists b. reflexivity.
      * intros [b Hb]. injection Hb as -> ->. eauto.
Qed.

(** [includes] finds exactly the occurrences. *)
Lemma includes_spec s p : includes s p = true <-> occursIn p s.
Proof.
  split.
  - induction s as [|c s IH]; cbn [includes]; rewrite orb_true_iff.
    + intros [H | H]; [|discriminate].
      apply startsWith_spec in H as [b ->]. exists [], b. reflexivity.
    + intros [H | H].
      * apply startsWith_spec in H as [b ->]. exists [], b. reflexivity.
      * destruct (IH H) as (a & b & ->). exists (c :: a), b. reflexivity.
  - intros (a & b & ->). apply includes_later, includes_here.
Qed.

Lemma occursIn_closed p s : includes s p = true -> occursIn p s.
Proof. apply includes_spec. Qed.

(** C6: an input in which the root marker [<html] occurs is the
    document as it stands.  Any other input is put into a fixed frame:
    the document is a head, the title element around the title, a middle
    part, the body element around the input exactly as it came, and a
    tail, where the three parts depend on neither the input nor the
    title; the head opens the document ([<!DOCTYPE html>], [<html>],
    [<head>]) and holds the UTF-8 charset declaration, the middle part
    holds the style element of lines 116-132 and closes the head, and the
    tail closes the document. *)
Theorem fullHtml_passes_or_wraps :
  (forall html title : jsstring,
      occursIn (js "<html") html -> fullHtml html title = html) /\
  exists head middle tail : jsstring,
    (forall html title : jsstring,
        ~ occursIn (js "<html") html ->
        fullHtml html title
        = head ++ js "<title>" ++ title ++ js "</title>" ++ middle
               ++ js "<body>" ++ html ++ js "</body>" ++ tail) /\
    occursIn (js "<!DOCTYPE html>") head /\
    occursIn (js "<html>") head /\
    occursIn (js "<head>") head /\
    occursIn (js "<meta charset=" ++ [34%N] ++ js "UTF-8" ++ [34%N] ++ js ">") head /\
    occursIn
      (js "<style>" ++ [10%N] ++
      js "            html, body {" ++ [10%N] ++
      js "              margin: 0;" ++ [10%N] ++
      js "              padding: 0;" ++ [10%N] ++
      js "              font-family: 'Segoe UI', Arial, sans-serif;" ++ [10%N] ++
      js "              font-size: 12pt;" ++ [10%N] ++
      js "              color: #000;" ++ [10%N] ++
      js "            }" ++ [10%N] ++
      js "            input, textarea, select {" ++ [10%N] ++
      js "              font-family: 'Segoe UI', Arial, sans-serif;" ++ [10%N] ++
      js "              font-size: 12pt;" ++ [10%N] ++
      js "              color: #000;" ++ [10%N] ++
      js "              border: none;" ++ [10%N] ++
      js "            }" ++ [10%N] ++
      js "            table { border-collapse: collapse; width: 100%; }" ++ [10%N] ++
      js "            td, th { border: 1px solid #000; padding: 8px; word-wrap: break-word; white-space: pre-wrap; }" ++ [10%N] ++
      js "          </style>")
      middle /\
    occursIn (js "</head>") middle /\
    occursIn (js "</html>") tail.
Proof.
  split.
  - intros html title H. apply includes_spec in H.
    unfold fullHtml, rootMarker. now rewrite H.
  - exists (nl ++ indent 6 (js "<!DOCTYPE html>") ++ nl ++ indent 6 (js "<html>") ++ nl
            ++ indent 8 (js "<head>") ++ nl ++ indent 10 charsetDeclaration ++ nl
            ++ repeat 32%N 10),
           (nl ++ indent 10 defaultStylesheet ++ nl ++ indent 8 (js "</head>") ++ nl
            ++ repeat 32%N 8),
           (nl ++ indent 6 (js "</html>") ++ nl ++ indent 4 []).
    split.
    + intros html title H.
      assert (includes html rootMarker = false) as Hn.
      { destruct (includes html rootMarker) eqn:E; [|reflexivity].
        exfalso. apply H. now apply includes_spec. }
      unfold fullHtml. rewrite Hn.
      unfold documentShell, indent, titleElement, bodyElement.
      rewrite <- ?app_assoc. reflexivity.
    + repeat split; apply occursIn_closed; vm_compute; reflexivity.
Qed.

Lemma fullHtml_passes_or_wraps_witness :
  fullHtml (js "<!DOCTYPE html><html><body>x</body></html>") (js "t")
  = js "<!DOCTYPE html><html><body>x</body></html>".
Proof.
  apply (proj1 fullHtml_passes_or_wraps).
  exists (js "<!DOCTYPE html>"), (js "><body>x</body></html>"). reflexivity.
Defined.

(** ** Object identifiers *)

Lemma hexValue_hexDigit d :
  (d < 16)%N -> ObjectId.hexValue (ObjectId.hexDigit d) = Some d.
Proof.
  intros Hd. unfold ObjectId.hexDigit, ObjectId.hexValue.
  destruct (N.ltb_spec d 10).
  - replace (48 <=? 48 + d)%N with true by (symmetry; apply N.leb_le; lia).
    replace (48 + d <=? 57)%N with true by (symmetry; apply N.leb_le; lia).
    simpl. f_equal. lia.
  - replace (87 + d <=? 57)%N with false by (symmetry; apply N.leb_gt; lia).
    replace (97 <=? 87 + d)%N with true by (symmetry; apply N.leb_le; lia).
    replace (87 + d <=? 102)%N with true by (symmetry; apply N.leb_le; lia).
    rewrite andb_false_r. simpl. f_equal. lia.
Qed.

Lemma toHex_length len n acc :
  length (ObjectId.toHex len n acc) = (len + length acc)%nat.
Proof.
  revert n acc. induction len as [|len IH]; intros n acc; simpl; [reflexivity|].
  rewrite IH. simpl. lia.
Qed.

Lemma toHex_digits len n acc :
  forallb ObjectId.isHexDigit (ObjectId.toHex len n acc)
  = forallb ObjectId.isHexDigit acc.
Proof.
  revert n acc. induction len as [|len IH]; intros n acc; simpl; [reflexivity|].
  rewrite IH. simpl. unfold ObjectId.isHexDigit at 1.
  rewrite hexValue_hexDigit; [reflexivity|]. apply N.mod_lt. discriminate.
Qed.

Lemma toHex_value len n acc a :
  fold_left (fun acc c => acc * 16 + default 0 (ObjectId.hexValue c))%N
    (ObjectId.toHex len n acc) a
  = fold_left (fun acc c => acc * 16 + default 0 (ObjectId.hexValue c))%N
      acc (a * 16 ^ N.of_nat len + n mod 16 ^ N.of_nat len)%N.
Proof.
  revert n acc a. induction len as [|len IH]; intros n acc a.
  - simpl. rewrite N.mod_1_r. f_equal. lia.
  - cbn [ObjectId.toHex]. rewrite IH. cbn [fold_left].
    rewrite hexValue_hexDigit by (apply N.mod_lt; discriminate).
    f_equal. cbn [default].
    rewrite Nat2N.inj_succ, N.pow_succ_r'.
    rewrite (N.Div0.mod_mul_r n 16 (16 ^ N.of_nat len)).
    unfold id. generalize (16 ^ N.of_nat len)%N. intros k. nia.
Qed.

(** An id written in hexadecimal reads back as the same id. *)
Lemma ofString_toHexString id :
  (id < ObjectId.modulus)%N ->
  ObjectId.ofString (ObjectId.toHexString id) = Some id.
Proof.
  intros Hid. unfold ObjectId.ofString, ObjectId.toHexString.
  rewrite toHex_length, toHex_digits.
  change ((24 + length (@nil N) =? 24)%nat && forallb ObjectId.isHexDigit [])
    with true.
  cbv iota. f_equal. unfold ObjectId.fromHex. rewrite toHex_value.
  cbn [fold_left]. rewrite N.mul_0_l, N.add_0_l.
  apply N.mod_small. exact Hid.
Qed.

Lemma generate_bound seed : (ObjectId.generate seed < ObjectId.modulus)%N.
Proof. apply N.mod_lt. discriminate. Qed.

(** ** Running the submit handler *)

Ltac simpl_run :=
  cbn [fst snd files calls openBrowsers sent unhandled browsersAfter negb
       status body Nat.pred orb].

Ltac split_on t := destruct t eqn:?; simpl_run.

(** One goal for each way through the handler, in the order of the
    source. *)
Ltac submit_cases env req :=
  cbv [after callsOf submit_report try_catch bind await_call page_pdf
       fullHtmlOf bucket_upload send ret throw emptyWorld];
  simpl_run;
  split_on (truthy (html req));
  [ split_on (truthy (resolveFolder (reportType req) (folder req))) | ];
  try match goal with |- context [rejects env (Launch true)] =>
        split_on (rejects env (Launch true)) end;
  try match goal with |- context [rejects env NewContext] =>
        split_on (rejects env NewContext) end;
  try match goal with |- context [rejects env NewPage] =>
        split_on (rejects env NewPage) end;
  try match goal with |- context [match html req with _ => _ end] =>
        split_on (html req) end;
  try match goal with |- context [rejects env (SetContent ?d ?u)] =>
        split_on (rejects env (SetContent d u)) end;
  try match goal with |- context [rejects env (EmulateMedia ?m)] =>
        split_on (rejects env (EmulateMedia m)) end;
  try match goal with |- context [rejects env (WaitForTimeout ?m)] =>
        split_on (rejects env (WaitForTimeout m)) end;
  try match goal with |- context [rejects env (Pdf ?m)] =>
        split_on (rejects env (Pdf m)) end;
  try match goal with |- context [rejects env Close] =>
        split_on (rejects env Close) end;
  try match goal with |- context [uploadError env] =>
        split_on (uploadError env) end;
  repeat match goal with
    | |- context [bool_decide (is_Some (?m !! ?i))] =>
        split_on (bool_decide (is_Some (m !! i)))
    end.

Ltac list_calls :=
  cbn [app existsb isPdfCall isLaunchCall isCloseCall orb mediaAtCapture].

(** The calls of a submission do not depend on the state it starts in. *)
Lemma submit_report_calls env req w :
  calls (after (submit_report env req) w) = calls w ++ callsOf env req.
Proof.
  submit_cases env req; rewrite ?app_nil_r, <- ?app_assoc; reflexivity.
Qed.


(** A submission writes exactly one response, and only a response with
    status 200 comes with a change of the bucket. *)
Lemma submit_report_one_response env req w :
  exists r, sent (after (submit_report env req) w) = sent w ++ [r] /\
            (status r <> 200 -> files (after (submit_report env req) w) = files w).
Proof.
  submit_cases env req; eexists; (split; [reflexivity|]);
    simpl_run; intros H; try reflexivity; congruence.
Qed.

(** Lines 99-101: without a folder number the handler answers 400 and
    does nothing else. *)
Lemma submit_report_unclassified env req w :
  truthy (resolveFolder (reportType req) (folder req)) = false ->
  calls (after (submit_report env req) w) = calls w /\
  openBrowsers (after (submit_report env req) w) = openBrowsers w /\
  files (after (submit_report env req) w) = files w /\
  exists msg, sent (after (submit_report env req) w)
              = sent w ++ [ {| status := 400; body := JError msg |} ].
Proof.
  submit_cases env req; intros H; try discriminate; repeat split; eauto.
Qed.

(** A Playwright call that rejects ends the submission in the [catch]
    block: the answer is 500 and nothing is uploaded. *)
Lemma submit_report_rejected env req w :
  (exists c, c ∈ callsOf env req /\ rejects env c = true) ->
  files (after (submit_report env req) w) = files w /\
  sent (after (submit_report env req) w)
  = sent w ++ [ {| status := 500; body := JError (js "Failed to generate PDF") |} ].
Proof.
  submit_cases env req; intros (c & Hc & Hr); list_calls; try (split; reflexivity);
    exfalso; cbn [app] in Hc;
    repeat (apply elem_of_cons in Hc as [-> | Hc]; [congruence|]);
    apply elem_of_nil in Hc; exact Hc.
Qed.

(** What an accepted upload leaves: the answer names the generated id,
    which was free, and the bucket holds the capture under it, tagged
    with the folder number. *)
Lemma submit_report_stored env req w i :
  sent (after (submit_report env req) w)
  = sent w ++ [ {| status := 200; body := JFileId i |} ] ->
  i = ObjectId.generate (objectIdSeed env) /\
  files w !! i = None /\
  files (after (submit_report env req) w)
  = <[ i := {| filename := makeFilename (reportType req)
                             (resolvedTitle (reportTitle req) (reportType req))
                             (dateNow env);
               metadata_folder := storedFolder (resolveFolder (reportType req) (folder req));
               uploadDate := uploadClock env;
               content := pdfBuffer env |} ]> (files w).
Proof.
  submit_cases env req; intros H; apply app_inv_head in H;
    try discriminate.
  injection H as <-. repeat split.
  match goal with
  | Hd : bool_decide (is_Some (files w !! ?j)) = false |- _ =>
      apply bool_decide_eq_false in Hd; destruct (files w !! j) eqn:E;
      [exfalso; apply Hd; eauto | reflexivity]
  end.
Qed.

(** The browser is closed on the way to the upload. *)
Lemma submit_report_closed env req w :
  existsb isCloseCall (callsOf env req) = true ->
  rejects env Close = false ->
  openBrowsers (after (submit_report env req) w) = openBrowsers w.
Proof.
  submit_cases env req; list_calls; intros H HC;
    try discriminate; try reflexivity; congruence.
Qed.

(** A launched browser is running after any submission that did not get
    as far as line 148. *)
Lemma submit_report_not_closed env req w :
  existsb isLaunchCall (callsOf env req) = true ->
  rejects env (Launch true) = false ->
  existsb isCloseCall (callsOf env req) = false ->
  openBrowsers (after (submit_report env req) w) = S (openBrowsers w).
Proof.
  submit_cases env req; list_calls; intros HL HR HC;
    try discriminate; try reflexivity; congruence.
Qed.

(** ** The render step *)

(** C1 as the specification words it does not hold: the submission
    whose calls all go through is captured with the media type set to
    ["screen"], not to ["print"]. *)
Lemma capture_media_is_not_print :
  ~ (forall env req,
        existsb isPdfCall (callsOf env req) = true ->
        mediaAtCapture (callsOf env req) None = Some (js "print")).
Proof.
  intros H.
  assert (existsb isPdfCall (callsOf calmEnv sampleBody) = true) as Hp
    by (vm_compute; reflexivity).
  specialize (H calmEnv sampleBody Hp). vm_compute in H. discriminate.
Qed.

(** C1, amended: in every submission that reaches the capture, the page
    was given the normalized document and waited for network-idle, then
    the emulated media type was switched to ["screen"], then came the
    500 ms delay and the capture with the fixed options; the media type
    in force at the capture is ["screen"]. *)
Theorem capture_follows_screen_media (env : Env) (req : SubmitBody) :
  existsb isPdfCall (callsOf env req) = true ->
  mediaAtCapture (callsOf env req) None = Some (js "screen") /\
  exists s rest,
    html req = VStr s /\
    callsOf env req =
      [ Launch true; NewContext; NewPage;
        SetContent (fullHtml s (resolvedTitle (reportTitle req) (reportType req)))
          (js "networkidle");
        EmulateMedia (js "screen");
        WaitForTimeout 500;
        Pdf pdfOptions ] ++ rest /\
    (rest = [] \/ rest = [Close]).
Proof.
  submit_cases env req; list_calls; intros H; try discriminate;
    (split; [reflexivity|]); eexists _, _;
    (split; [reflexivity|]); (split; [reflexivity|]); auto.
Qed.

Lemma capture_follows_screen_media_witness :
  existsb isPdfCall (callsOf calmEnv sampleBody) = true /\
  mediaAtCapture (callsOf calmEnv sampleBody) None = Some (js "screen").
Proof.
  assert (existsb isPdfCall (callsOf calmEnv sampleBody) = true) as Hp
    by (vm_compute; reflexivity).
  split; [exact Hp|].
  exact (proj1 (capture_follows_screen_media calmEnv sampleBody Hp)).
Defined.

(** C2, at the input where the code departs from it: when the
    navigation of line 138 rejects, the browser launched at line 104 has
    not been closed when the handler answers 500; line 148 is not
    reached and the [catch] block closes nothing. *)
Theorem browser_left_running_after_failed_navigation :
  let w := after (submit_report stalledEnv sampleBody) emptyWorld in
  existsb isLaunchCall (calls w) = true /\
  rejects stalledEnv (Launch true) = false /\
  existsb isCloseCall (calls w) = false /\
  openBrowsers w = 1%nat /\
  sent w = [ {| status := 500; body := JError (js "Failed to generate PDF") |} ].
Proof. vm_compute. repeat split. Qed.

(** ** Failures and the bucket *)

(** C8: a submission that cannot be classified is answered with 400
    without any call on the rendering engine, without a browser and
    without a change of the bucket; a submission in which a call on the
    rendering engine rejects is answered with 500 and leaves the bucket
    as it was; and every submission writes exactly one response, which
    has status 200 whenever the bucket has changed. *)
Theorem failed_submission_leaves_bucket (env : Env) (req : SubmitBody) (w : World) :
  let w' := after (submit_report env req) w in
  (truthy (resolveFolder (reportType req) (folder req)) = false ->
   calls w' = calls w /\ openBrowsers w' = openBrowsers w /\ files w' = files w /\
   exists msg, sent w' = sent w ++ [ {| status := 400; body := JError msg |} ]) /\
  ((exists c, c ∈ callsOf env req /\ rejects env c = true) ->
   files w' = files w /\
   sent w' = sent w ++
             [ {| status := 500; body := JError (js "Failed to generate PDF") |} ]) /\
  (exists r, sent w' = sent w ++ [r] /\ (status r <> 200 -> files w' = files w)).
Proof.
  intros w'. subst w'. split; [|split].
  - apply submit_report_unclassified.
  - apply submit_report_rejected.
  - apply submit_report_one_response.
Qed.

Lemma failed_submission_leaves_bucket_witness :
  calls (after (submit_report calmEnv unclassifiedBody) emptyWorld) = [] /\
  files (after (submit_report stalledEnv sampleBody) emptyWorld) = ∅.
Proof.
  split.
  - assert (truthy (resolveFolder (reportType unclassifiedBody)
                      (folder unclassifiedBody)) = false) as H
      by (vm_compute; reflexivity).
    exact (proj1 (proj1 (failed_submission_leaves_bucket
                           calmEnv unclassifiedBody emptyWorld) H)).
  - assert (exists c, c ∈ callsOf stalledEnv sampleBody /\ rejects stalledEnv c = true) as H.
    { exists (SetContent
                (fullHtml (js "<p>x</p>") (resolvedTitle VUndefined (VStr (js "liquid_ir"))))
                (js "networkidle")).
      split; [|reflexivity].
      assert (callsOf stalledEnv sampleBody =
              [ Launch true; NewContext; NewPage;
                SetContent
                  (fullHtml (js "<p>x</p>")
                     (resolvedTitle VUndefined (VStr (js "liquid_ir"))))
                  (js "networkidle") ]) as -> by (vm_compute; reflexivity).
      rewrite !elem_of_cons. auto. }
    exact (proj1 (proj1 (proj2 (failed_submission_leaves_bucket
                                  stalledEnv sampleBody emptyWorld)) H)).
Defined.

(** ** Listing, reading and deleting *)

Lemma findFiles_spec f w p :
  p ∈ findFiles f w <-> files w !! p.1 = Some p.2 /\ matchesFilter f p.2 = true.
Proof.
  unfold findFiles. rewrite merge_sort_Permutation.
  rewrite list_elem_of_In, filter_In, <- list_elem_of_In.
  destruct p as [i d]. simpl. now rewrite elem_of_map_to_list.
Qed.

#[local] Instance newestFirst_total : Total newestFirst.
Proof. intros a b. unfold newestFirst. lia. Qed.

(** The list comes newest first. *)
Lemma findFiles_sorted f w : Sorted newestFirst (findFiles f w).
Proof. unfold findFiles. apply Sorted_merge_sort; apply _. Qed.

(** The ids of a listing are the ids of the files that pass the filter. *)
Lemma listing_ids f w i :
  i ∈ List.map entry_fileId (List.map toEntry (findFiles f w)) <->
  exists d, files w !! i = Some d /\ matchesFilter f d = true.
Proof.
  rewrite List.map_map. change (List.map ?g ?l) with (g <$> l).
  rewrite list_elem_of_fmap. split.
  - intros ([j d] & -> & Hp). apply findFiles_spec in Hp. simpl in *. eauto.
  - intros (d & Hd & Hm). exists (i, d). split; [reflexivity|].
    apply findFiles_spec. auto.
Qed.

Lemma all_reports_sent q w :
  sent (after (all_reports q) w)
  = sent w ++ [ {| status := 200;
                   body := JReports (List.map toEntry (findFiles (parseInt q 0) w)) |} ].
Proof. reflexivity. Qed.

Lemma all_reports_files q w : files (after (all_reports q) w) = files w.
Proof. reflexivity. Qed.

Lemma get_pdf_found w i d :
  (i < ObjectId.modulus)%N -> files w !! i = Some d ->
  sent (after (get_pdf (ObjectId.toHexString i)) w)
  = sent w ++ [ {| status := 200; body := PdfStream (content d) |} ].
Proof.
  intros Hi Hd. unfold after, get_pdf, try_catch, bind, new_ObjectId.
  rewrite (ofString_toHexString _ Hi). cbv [ret pipeDownload].
  rewrite Hd. reflexivity.
Qed.

Lemma get_pdf_missing w i :
  (i < ObjectId.modulus)%N -> files w !! i = None ->
  sent (after (get_pdf (ObjectId.toHexString i)) w) = sent w /\
  unhandled (after (get_pdf (ObjectId.toHexString i)) w)
  = unhandled w ++ [FileNotFound i].
Proof.
  intros Hi Hd. unfold after, get_pdf, try_catch, bind, new_ObjectId.
  rewrite (ofString_toHexString _ Hi). cbv [ret pipeDownload].
  rewrite Hd. split; reflexivity.
Qed.

Lemma delete_report_found w s i d :
  ObjectId.ofString s = Some i -> files w !! i = Some d ->
  files (after (delete_report s) w) = delete i (files w) /\
  sent (after (delete_report s) w)
  = sent w ++ [ {| status := 200;
                   body := JMessage (js "Report deleted successfully") |} ].
Proof.
  intros Hs Hd. unfold after, delete_report, try_catch, bind, new_ObjectId, bucket_delete.
  rewrite Hs. cbv [ret]. rewrite Hd. split; reflexivity.
Qed.

Lemma delete_report_absent w s :
  (forall i, ObjectId.ofString s = Some i -> files w !! i = None) ->
  files (after (delete_report s) w) = files w /\
  sent (after (delete_report s) w)
  = sent w ++ [ {| status := 500; body := JError (js "Failed to delete report") |} ].
Proof.
  intros H. unfold after, delete_report, try_catch, bind, new_ObjectId, bucket_delete.
  destruct (ObjectId.ofString s) as [i|] eqn:Hs.
  - cbv [ret]. rewrite (H i eq_refl). split; reflexivity.
  - split; reflexivity.
Qed.

(** A deletion that answers 200 has removed the file it names. *)
Lemma delete_report_succeeded w s msg :
  sent (after (delete_report s) w)
  = sent w ++ [ {| status := 200; body := msg |} ] ->
  exists i, ObjectId.ofString s = Some i /\ is_Some (files w !! i) /\
            files (after (delete_report s) w) = delete i (files w).
Proof.
  unfold after, delete_report, try_catch, bind, new_ObjectId, bucket_delete.
  destruct (ObjectId.ofString s) as [i|] eqn:Hs.
  - cbv [ret]. destruct (files w !! i) as [d|] eqn:Hd.
    + intros _. exists i. rewrite Hd. eauto.
    + intros H. apply app_inv_head in H. discriminate.
  - intros H. apply app_inv_head in H. discriminate.
Qed.

(** C9: a deletion whose id is absent from the bucket (it was never
    issued, it was deleted before, or the string is no id at all) is
    answered with the 500 failure and changes nothing; and after a
    deletion that answered 200, deleting the same id again is answered
    with that failure. *)
Theorem delete_of_absent_id_fails (w : World) (fileId : jsstring) :
  let failure :=
    {| status := 500; body := JError (js "Failed to delete report") |} in
  let w1 := after (delete_report fileId) w in
  ((forall i, ObjectId.ofString fileId = Some i -> files w !! i = None) ->
   sent w1 = sent w ++ [failure] /\ files w1 = files w) /\
  (forall msg,
      sent w1 = sent w ++ [ {| status := 200; body := msg |} ] ->
      sent (after (delete_report fileId) w1) = sent w1 ++ [failure] /\
      files (after (delete_report fileId) w1) = files w1).
Proof.
  intros failure w1. split.
  - intros H. destruct (delete_report_absent w fileId H). auto.
  - intros msg H. apply delete_report_succeeded in H as (i & Hs & _ & Hf).
    assert (forall j, ObjectId.ofString fileId = Some j -> files w1 !! j = None) as Habs.
    { intros j Hj. assert (j = i) as -> by congruence.
      subst w1. rewrite Hf. apply lookup_delete_eq. }
    destruct (delete_report_absent w1 fileId Habs). auto.
Qed.

Lemma delete_of_absent_id_fails_witness :
  sent (after (delete_report (ObjectId.toHexString 7)) emptyWorld)
  = [ {| status := 500; body := JError (js "Failed to delete report") |} ] /\
  sent (after (delete_report (ObjectId.toHexString 7))
          (after (delete_report (ObjectId.toHexString 7))
             (after (submit_report calmEnv sampleBody) emptyWorld)))
  = [ {| status := 200; body := JFileId 7%N |};
      {| status := 200; body := JMessage (js "Report deleted successfully") |};
      {| status := 500; body := JError (js "Failed to delete report") |} ].
Proof.
  split.
  - assert (forall i, ObjectId.ofString (ObjectId.toHexString 7) = Some i ->
                      files emptyWorld !! i = None) as H
      by (intros i _; reflexivity).
    exact (proj1 (proj1 (delete_of_absent_id_fails emptyWorld
                           (ObjectId.toHexString 7)) H)).
  - assert (sent (after (delete_report (ObjectId.toHexString 7))
                    (after (submit_report calmEnv sampleBody) emptyWorld))
            = sent (after (submit_report calmEnv sampleBody) emptyWorld)
              ++ [ {| status := 200;
                      body := JMessage (js "Report deleted successfully") |} ]) as H
      by (vm_compute; reflexivity).
    exact (proj1 (proj2 (delete_of_absent_id_fails
                           (after (submit_report calmEnv sampleBody) emptyWorld)
                           (ObjectId.toHexString 7)) _ H)).
Defined.

(** ** The round trip *)

(** C7: let a submission with report type ["liquid_ir"] answer 200 with
    the id [i], the capture being a non-empty buffer.  Then the listing
    for folder 1 contains [i]; reading [i] streams the capture, which is
    not empty; deleting [i] answers 200; and after that reading [i]
    streams nothing (the download stream fails with file-not-found) and
    no listing, filtered or not, contains [i]. *)
Theorem submit_list_read_delete (env : Env) (req : SubmitBody) (w : World)
    (i : ObjectId.t) :
  let w1 := after (submit_report env req) w in
  let hex := ObjectId.toHexString i in
  let w2 := after (delete_report hex) w1 in
  reportType req = VStr (js "liquid_ir") ->
  sent w1 = sent w ++ [ {| status := 200; body := JFileId i |} ] ->
  pdfBuffer env <> [] ->
  (exists es,
      sent (after (all_reports (VStr (js "1"))) w1)
      = sent w1 ++ [ {| status := 200; body := JReports es |} ] /\
      i ∈ List.map entry_fileId es) /\
  (exists bytes,
      sent (after (get_pdf hex) w1)
      = sent w1 ++ [ {| status := 200; body := PdfStream bytes |} ] /\
      bytes = pdfBuffer env /\ bytes <> []) /\
  sent w2 = sent w1 ++ [ {| status := 200;
                            body := JMessage (js "Report deleted successfully") |} ] /\
  files w2 !! i = None /\
  (sent (after (get_pdf hex) w2) = sent w2 /\
   unhandled (after (get_pdf hex) w2) = unhandled w2 ++ [FileNotFound i]) /\
  (forall q es,
      sent (after (all_reports q) w2)
      = sent w2 ++ [ {| status := 200; body := JReports es |} ] ->
      i ∉ List.map entry_fileId es).
Proof.
  intros w1 hex w2 Hty Hsent Hpdf.
  apply submit_report_stored in Hsent as (Hi & Hfree & Hfiles).
  assert (i < ObjectId.modulus)%N as Hbound by (subst i; apply generate_bound).
  assert (resolveFolder (reportType req) (folder req) = VNum 1) as Hfolder.
  { rewrite Hty. apply resolveFolder_own_key. vm_compute. reflexivity. }
  rewrite Hfolder in Hfiles. cbn [storedFolder] in Hfiles. fold w1 in Hfiles.
  set (doc := {| filename := makeFilename (reportType req)
                               (resolvedTitle (reportTitle req) (reportType req))
                               (dateNow env);
                 metadata_folder := VNum 1;
                 uploadDate := uploadClock env;
                 content := pdfBuffer env |}) in Hfiles.
  assert (files w1 !! i = Some doc) as Hdoc
    by (rewrite Hfiles; apply lookup_insert_eq).
  assert (ObjectId.ofString hex = Some i) as Hhex
    by (apply ofString_toHexString; exact Hbound).
  destruct (delete_report_found w1 hex i doc Hhex Hdoc) as [Hdel Hdelsent].
  fold w2 in Hdel, Hdelsent.
  assert (files w2 !! i = None) as Hgone
    by (rewrite Hdel; apply lookup_delete_eq).
  repeat split.
  - eexists. split; [apply all_reports_sent|].
    apply listing_ids. exists doc. split; [exact Hdoc|].
    vm_compute. reflexivity.
  - exists (content doc). split; [|split; [reflexivity|exact Hpdf]].
    apply get_pdf_found; assumption.
  - exact Hdelsent.
  - exact Hgone.
  - apply get_pdf_missing; assumption.
  - apply get_pdf_missing; assumption.
  - intros q es Hq. rewrite all_reports_sent in Hq.
    apply app_inv_head in Hq.
    assert (es = List.map toEntry (findFiles (parseInt q 0) w2)) as ->
      by congruence.
    rewrite listing_ids. intros (d & Hd & _). congruence.
Qed.

Lemma submit_list_read_delete_witness :
  sent (after (submit_report calmEnv sampleBody) emptyWorld)
  = [ {| status := 200; body := JFileId 7%N |} ] /\
  files (after (delete_report (ObjectId.toHexString 7))
           (after (submit_report calmEnv sampleBody) emptyWorld)) !! 7%N = None.
Proof.
  assert (reportType sampleBody = VStr (js "liquid_ir")) as Hty by reflexivity.
  assert (sent (after (submit_report calmEnv sampleBody) emptyWorld)
          = sent emptyWorld ++ [ {| status := 200; body := JFileId 7%N |} ])
    as Hsent by (vm_compute; reflexivity).
  assert (pdfBuffer calmEnv <> []) as Hpdf by (vm_compute; discriminate).
  split; [exact Hsent|].
  exact (proj1 (proj2 (proj2 (proj2
           (submit_list_read_delete calmEnv sampleBody emptyWorld 7%N
              Hty Hsent Hpdf))))).
Defined.

(** ** Evaluations *)

Example parseInt_examples :
  parseInt (VStr (js "7.9")) 10 = Some 7 /\
  parseInt (VStr (js "  15px")) 10 = Some 15 /\
  parseInt (VStr (js "-3")) 10 = Some (-3) /\
  parseInt (VStr (js "+8")) 10 = Some 8 /\
  parseInt (VStr (js "0x1f")) 10 = Some 0 /\
  parseInt (VStr (js "0x1f")) 0 = Some 31 /\
  parseInt (VStr (js "abc")) 10 = None /\
  parseInt (VStr []) 10 = None /\
  parseInt VUndefined 0 = None /\
  parseInt (VNum 12) 10 = Some 12 /\
  parseInt (VNum (-4)) 10 = Some (-4) /\
  parseInt (VNum 0) 10 = Some 0.
Proof. vm_compute. repeat split. Qed.

Example resolveFolder_examples :
  resolveFolder (VStr (js "liquid_ir")) VUndefined = VNum 1 /\
  resolveFolder (VStr (js "extra3")) (VNum 2) = VNum 15 /\
  resolveFolder VUndefined (VNum 12) = VNum 12 /\
  resolveFolder VUndefined (VNum 0) = VNull /\
  resolveFolder VUndefined (VNum 16) = VNull /\
  resolveFolder VUndefined (VNum (-3)) = VNull /\
  resolveFolder VUndefined (VStr (js " ")) = VNull /\
  resolveFolder VUndefined (VStr (js "16")) = VNull /\
  resolveFolder VUndefined (VBool true) = VNull /\
  resolveFolder VUndefined VUndefined = VNull /\
  resolveFolder (VStr (js "LIQUID_IR")) VUndefined = VNull /\
  resolveFolder (VStr (js "toString")) VUndefined = VNative (js "toString") /\
  resolveFolder (VStr (js "__proto__")) (VNum 3) = VObjectPrototype.
Proof. vm_compute. repeat split. Qed.

Example resolvedTitle_examples :
  resolvedTitle (VStr (js "<b>Weld</b> 7")) (VStr (js "stage_ir")) = js "b>Weld/b> 7" /\
  resolvedTitle VUndefined (VStr (js "stage_ir")) = js "stage_ir" /\
  resolvedTitle (VStr []) VNull = js "Report" /\
  resolvedTitle (VNum 42) VUndefined = js "42" /\
  length (resolvedTitle (VStr (repeat 120%N 400)) VUndefined) = 150%nat.
Proof. vm_compute. repeat split. Qed.

(** The root marker is looked for as it is spelt: an upper-case root
    element does not count and the input is wrapped. *)
Example fullHtml_examples :
  fullHtml (js "<!DOCTYPE html><html><body>x</body></html>") (js "t")
  = js "<!DOCTYPE html><html><body>x</body></html>" /\
  fullHtml (js "<p><html-like></p>") (js "t") = js "<p><html-like></p>" /\
  fullHtml (js "<HTML><BODY>x</BODY></HTML>") (js "t")
  = documentShell (js "t") (js "<HTML><BODY>x</BODY></HTML>").
Proof. vm_compute. repeat split. Qed.

Example makeFilename_examples :
  makeFilename (VStr (js "liquid_ir")) (js "liquid_ir") 1700000000000
  = js "liquid_ir-1700000000000.pdf" /\
  makeFilename VUndefined (js "Weld  report #7") 5 = js "Weld_report_7-5.pdf" /\
  makeFilename (VStr (js "a/b c")) (js "a/b c") 5 = js "abc-5.pdf".
Proof. vm_compute. repeat split. Qed.

Example toHexString_examples :
  ObjectId.toHexString 255 = js "0000000000000000000000ff" /\
  ObjectId.ofString (js "0000000000000000000000FF") = Some 255%N /\
  ObjectId.ofString (js "ff") = None /\
  ObjectId.ofString (js "00000000000000000000000g") = None.
Proof. vm_compute. repeat split. Qed.

(** Deleting with a string that is no id, and reading a file that is
    not there. *)
Example absent_file_examples :
  sent (after (delete_report (js "nonsense")) emptyWorld)
  = [ {| status := 500; body := JError (js "Failed to delete report") |} ] /\
  sent (after (get_pdf (js "nonsense")) emptyWorld)
  = [ {| status := 500; body := JError (js "Failed to retrieve PDF") |} ] /\
  sent (after (get_pdf (ObjectId.toHexString 7)) emptyWorld) = [] /\
  unhandled (after (get_pdf (ObjectId.toHexString 7)) emptyWorld) = [FileNotFound 7%N].
Proof. vm_compute. repeat split. Qed.

(** A submission whose [html] is a number: line 110 throws inside the
    [try], after the browser was launched. *)
Example html_number_example :
  let w := after (submit_report calmEnv
                    {| html := VNum 5; reportType := VStr (js "stage_ir");
                       folder := VUndefined; reportTitle := VUndefined |})
                 emptyWorld in
  calls w = [Launch true; NewContext; NewPage] /\
  sent w = [ {| status := 500; body := JError (js "Failed to generate PDF") |} ] /\
  files w = ∅.
Proof. vm_compute. repeat split. Qed.

(** * Further properties of the handlers *)

(** ** The guard *)

Lemma split_no_separator sep a :
  sep ∉ a -> split sep a = [a].
Proof.
  induction a as [|c a IH]; intros H; [reflexivity|].
  rewrite not_elem_of_cons in H. destruct H as [Hc Ha].
  cbn [split]. destruct (N.eqb_spec c sep); [congruence|].
  now rewrite (IH Ha).
Qed.

Lemma split_at_separator sep a b :
  sep ∉ a -> split sep (a ++ sep :: b) = a :: split sep b.
Proof.
  induction a as [|c a IH]; intros H.
  - cbn [app split]. now rewrite N.eqb_refl.
  - rewrite not_elem_of_cons in H. destruct H as [Hc Ha].
    cbn [app split]. destruct (N.eqb_spec c sep); [congruence|].
    now rewrite (IH Ha).
Qed.

(** The second piece of a header: what stands between the first space
    and the next one. *)
Lemma bearerToken_second_piece scheme token tail :
  32%N ∉ scheme -> 32%N ∉ token ->
  match tail with [] => True | c :: _ => c = 32%N end ->
  bearerToken (Some (scheme ++ 32%N :: token ++ tail)) = Some token.
Proof.
  intros Hs Ht Htail. unfold bearerToken.
  rewrite (split_at_separator _ _ _ Hs).
  destruct tail as [|c tail].
  - rewrite app_nil_r, (split_no_separator _ _ Ht). reflexivity.
  - subst c. rewrite (split_at_separator _ _ _ Ht). reflexivity.
Qed.

Lemma authMiddleware_refuses jwt a next w :
  (forall t, bearerToken a = Some t -> t <> [] -> jwt_verify jwt t = None) ->
  exists msg,
    after (authMiddleware jwt a next) w
    = after (send 401 (JError msg)) w /\
    (msg = js "No token" \/ msg = js "Invalid token").
Proof.
  intros H. unfold authMiddleware.
  destruct (bearerToken a) as [t|]; [|eauto].
  destruct t as [|c t]; cbn [isEmpty]; [eauto|].
  rewrite (H (c :: t) eq_refl) by discriminate. eauto.
Qed.

Lemma authMiddleware_passes jwt a next t c :
  bearerToken a = Some t -> t <> [] -> jwt_verify jwt t = Some c ->
  authMiddleware jwt a next = next.
Proof.
  intros Ha Ht Hv. unfold authMiddleware. rewrite Ha.
  destruct t; [congruence|]. cbn [isEmpty]. now rewrite Hv.
Qed.

(** X1: a request to a guarded route (submit, list, delete) whose
    [Authorization] header is missing, has no second space-separated
    piece, has an empty one, or has one that [jwt.verify] rejects is
    answered with a single 401 and nothing else happens: the handler
    behind the guard does not run, so the bucket, the calls on the
    rendering engine and the running browsers are as before. *)
Theorem guarded_route_refuses_without_valid_token
    (jwt : Jwt) (env : Env) (r : Request) (a : option jsstring) (w : World) :
  guardedBy r = Some a ->
  (forall t, bearerToken a = Some t -> t <> [] -> jwt_verify jwt t = None) ->
  let w' := after (handle jwt env r) w in
  files w' = files w /\ calls w' = calls w /\
  openBrowsers w' = openBrowsers w /\ unhandled w' = unhandled w /\
  exists msg, sent w' = sent w ++ [ {| status := 401; body := JError msg |} ] /\
              (msg = js "No token" \/ msg = js "Invalid token").
Proof.
  intros Hr Ha w'. subst w'.
  assert (exists next, handle jwt env r = authMiddleware jwt a next) as [next ->].
  { destruct r; cbn in Hr; try discriminate; injection Hr as <-; eexists; reflexivity. }
  destruct (authMiddleware_refuses jwt a next w Ha) as (msg & -> & Hmsg).
  repeat split; try reflexivity. exists msg. split; [reflexivity|exact Hmsg].
Qed.

Lemma guarded_route_refuses_without_valid_token_witness :
  sent (after (handle toyJwt calmEnv
                 (DeleteReport (Some (js "Bearer")) (ObjectId.toHexString 7)))
          (after (submit_report calmEnv sampleBody) emptyWorld))
  = [ {| status := 200; body := JFileId 7%N |};
      {| status := 401; body := JError (js "No token") |} ].
Proof.
  assert (forall t, bearerToken (Some (js "Bearer")) = Some t -> t <> [] ->
                    jwt_verify toyJwt t = None) as H
    by (intros t Ht; vm_compute in Ht; discriminate).
  destruct (guarded_route_refuses_without_valid_token toyJwt calmEnv
              (DeleteReport (Some (js "Bearer")) (ObjectId.toHexString 7))
              (Some (js "Bearer"))
              (after (submit_report calmEnv sampleBody) emptyWorld)
              eq_refl H) as (_ & _ & _ & _ & msg & Hsent & [-> | ->]).
  - exact Hsent.
  - exfalso. vm_compute in Hsent. discriminate.
Defined.

(** X2: the guard looks only at the second space-separated piece of the
    header.  Whatever the first word is ([Bearer] or anything else
    without a space) and whatever follows a second space, a non-empty
    piece that [jwt.verify] accepts lets the request through, and the
    guarded route then behaves exactly as its handler. *)
Theorem guard_checks_second_piece_only
    (jwt : Jwt) (env : Env) (r : Request)
    (scheme token tail : jsstring) (c : Claims) :
  guardedBy r = Some (Some (scheme ++ 32%N :: token ++ tail)) ->
  32%N ∉ scheme -> 32%N ∉ token -> token <> [] ->
  match tail with [] => True | u :: _ => u = 32%N end ->
  jwt_verify jwt token = Some c ->
  handle jwt env r =
  match r with
  | PostSubmitReport _ b => submit_report env b
  | GetAllReports _ q => all_reports q
  | DeleteReport _ fileId => delete_report fileId
  | GetPdf fileId => get_pdf fileId
  end.
Proof.
  intros Hr Hs Ht Hne Htail Hv.
  pose proof (bearerToken_second_piece scheme token tail Hs Ht Htail) as Hb.
  destruct r; cbn in Hr; try discriminate; injection Hr as ->; cbn [handle];
    exact (authMiddleware_passes jwt _ _ token c Hb Hne Hv).
Qed.

Lemma guard_checks_second_piece_only_witness :
  handle toyJwt calmEnv
    (GetAllReports (Some (js "Basic jwt.admin trailing words")) VUndefined)
  = all_reports VUndefined.
Proof.
  apply (guard_checks_second_piece_only toyJwt calmEnv
           (GetAllReports (Some (js "Basic jwt.admin trailing words")) VUndefined)
           (js "Basic") (js "jwt.admin") (js " trailing words")
           {| claim_id := 1; claim_username := js "admin" |}).
  - reflexivity.
  - apply (bool_decide_unpack _). vm_compute. exact I.
  - apply (bool_decide_unpack _). vm_compute. exact I.
  - discriminate.
  - reflexivity.
  - reflexivity.
Defined.

(** ** The login *)

Lemma admin_login_accepts jwt :
  admin_login jwt (VStr (js "admin")) (VStr (js "admin123"))
  = (200, LoginToken (jwt_sign jwt {| claim_id := 1; claim_username := js "admin" |})).
Proof. reflexivity. Qed.

Lemma admin_login_rejects jwt u p :
  ~ (u = VStr (js "admin") /\ p = VStr (js "admin123")) ->
  admin_login jwt u p = (401, LoginError (js "Invalid credentials")).
Proof.
  intros H. cbv [admin_login users List.find strictEquals user_username user_password].
  destruct (bool_decide (u = VStr (js "admin"))) eqn:Hu; [|reflexivity].
  apply bool_decide_eq_true in Hu.
  destruct (bool_decide (p = VStr (js "admin123"))) eqn:Hp; [|reflexivity].
  apply bool_decide_eq_true in Hp. tauto.
Qed.

(** X3: the login answers 200 with a token signed for the payload
    [{ id: 1, username: "admin" }] exactly when the user name is the
    string ["admin"] and the password is the string ["admin123"]; every
    other pair of values (another case, surrounding blanks, a number, a
    missing field) is answered 401 with the same message, whichever of
    the two fields is wrong. *)
Theorem admin_login_characterized (jwt : Jwt) (u p : value) :
  admin_login jwt u p =
  if bool_decide (u = VStr (js "admin") /\ p = VStr (js "admin123"))
  then (200, LoginToken (jwt_sign jwt {| claim_id := 1; claim_username := js "admin" |}))
  else (401, LoginError (js "Invalid credentials")).
Proof.
  case_bool_decide as H.
  - destruct H as [-> ->]. apply admin_login_accepts.
  - now apply admin_login_rejects.
Qed.

(** X4: the token the login hands out opens the guarded routes.  When
    the token [jwt.sign] makes for the admin is not empty, has no space
    and is accepted by [jwt.verify], a request that carries it as
    [Bearer <token>] is handled exactly as the handler behind the guard
    handles it. *)
Theorem login_token_opens_guarded_routes
    (jwt : Jwt) (env : Env) (token : jsstring) (b : SubmitBody)
    (q : value) (fileId : jsstring) :
  admin_login jwt (VStr (js "admin")) (VStr (js "admin123"))
    = (200, LoginToken token) ->
  token <> [] -> 32%N ∉ token -> is_Some (jwt_verify jwt token) ->
  let header := Some (js "Bearer " ++ token) in
  handle jwt env (PostSubmitReport header b) = submit_report env b /\
  handle jwt env (GetAllReports header q) = all_reports q /\
  handle jwt env (DeleteReport header fileId) = delete_report fileId.
Proof.
  intros _ Hne Hsp [c Hc] header.
  assert (bearerToken header = Some token) as Hb.
  { subst header. change (js "Bearer " ++ token) with (js "Bearer" ++ 32%N :: token).
    rewrite <- (app_nil_r token) at 1.
    apply bearerToken_second_piece; [|exact Hsp|exact I].
    apply (bool_decide_unpack _). vm_compute. exact I. }
  repeat split; cbn [handle];
    exact (authMiddleware_passes jwt _ _ token c Hb Hne Hc).
Qed.

Lemma login_token_opens_guarded_routes_witness :
  handle toyJwt calmEnv (PostSubmitReport (Some (js "Bearer jwt.admin")) sampleBody)
  = submit_report calmEnv sampleBody.
Proof.
  assert (js "jwt.admin" <> []) as Hne by discriminate.
  assert (32%N ∉ js "jwt.admin") as Hsp
    by (apply (bool_decide_unpack _); vm_compute; exact I).
  assert (is_Some (jwt_verify toyJwt (js "jwt.admin"))) as Hv
    by (vm_compute; eauto).
  exact (proj1 (login_token_opens_guarded_routes toyJwt calmEnv (js "jwt.admin")
                  sampleBody VUndefined [] eq_refl Hne Hsp Hv)).
Defined.

(** ** What the bucket holds *)

Lemma keepNameChars_chars s :
  Forall (fun c => isNameChar c = true) (keepNameChars s).
Proof.
  apply Forall_forall. intros c Hc. unfold keepNameChars in Hc.
  apply list_elem_of_In, filter_In in Hc. exact (proj2 Hc).
Qed.

Lemma digit_is_name_char c : isDecimalDigit c = true -> isNameChar c = true.
Proof.
  unfold isDecimalDigit, isNameChar, isWordChar. intros ->. reflexivity.
Qed.

Lemma Number_toString_chars z :
  Forall (fun c => isNameChar c = true) (Number_toString z).
Proof.
  unfold Number_toString.
  destruct z as [|p|p]; cbn [Z.to_int NilZero.string_of_int].
  - repeat constructor.
  - destruct (positive_digits p) as (_ & Hds & _).
    eapply Forall_impl; [exact Hds|]. intros c. apply digit_is_name_char.
  - change (js (String "-" ?s)) with (45%N :: js s). constructor; [reflexivity|].
    destruct (positive_digits p) as (_ & Hds & _).
    eapply Forall_impl; [exact Hds|]. intros c. apply digit_is_name_char.
Qed.

Lemma makeFilename_chars ty title now :
  Forall (fun c => isNameChar c = true) (makeFilename ty title now).
Proof.
  unfold makeFilename, safeNameBase. rewrite !Forall_app. repeat split.
  - apply keepNameChars_chars.
  - repeat constructor.
  - apply Number_toString_chars.
  - repeat constructor.
Qed.

Lemma makeFilename_extension ty title now :
  exists base, makeFilename ty title now = base ++ js ".pdf".
Proof.
  unfold makeFilename.
  exists (safeNameBase ty title ++ js "-" ++ Number_toString now).
  now rewrite <- !app_assoc.
Qed.

(** A submission leaves the bucket as it was or adds one file to it,
    under the generated id, with a truthy folder. *)
Lemma submit_report_files env req w :
  files (after (submit_report env req) w) = files w \/
  (truthy (resolveFolder (reportType req) (folder req)) = true /\
   files w !! ObjectId.generate (objectIdSeed env) = None /\
   files (after (submit_report env req) w)
   = <[ ObjectId.generate (objectIdSeed env) :=
          {| filename := makeFilename (reportType req)
                           (resolvedTitle (reportTitle req) (reportType req))
                           (dateNow env);
             metadata_folder := storedFolder (resolveFolder (reportType req) (folder req));
             uploadDate := uploadClock env;
             content := pdfBuffer env |} ]> (files w)).
Proof.
  submit_cases env req; try (left; reflexivity).
  right. repeat split.
  match goal with
  | Hd : bool_decide (is_Some (files w !! ?j)) = false |- _ =>
      apply bool_decide_eq_false in Hd; destruct (files w !! j) eqn:E;
      [exfalso; apply Hd; eauto | reflexivity]
  end.
Qed.

Lemma delete_report_files s w :
  files (after (delete_report s) w) = files w \/
  exists i, files (after (delete_report s) w) = delete i (files w).
Proof.
  unfold after, delete_report, try_catch, bind, new_ObjectId, bucket_delete.
  destruct (ObjectId.ofString s) as [i|]; [|left; reflexivity].
  cbv [ret]. destruct (files w !! i); [right; exists i|left]; reflexivity.
Qed.

Lemma get_pdf_files s w : files (after (get_pdf s) w) = files w.
Proof.
  unfold after, get_pdf, try_catch, bind, new_ObjectId, pipeDownload.
  destruct (ObjectId.ofString s) as [i|]; [|reflexivity].
  cbv [ret]. destruct (files w !! i); reflexivity.
Qed.

Lemma authMiddleware_cases jwt a next w :
  after (authMiddleware jwt a next) w = after next w \/
  exists msg, after (authMiddleware jwt a next) w = after (send 401 (JError msg)) w.
Proof.
  unfold authMiddleware.
  destruct (bearerToken a) as [t|]; [|eauto].
  destruct (isEmpty t); [eauto|].
  destruct (jwt_verify jwt t); eauto.
Qed.

(** A folder number that reaches the bucket lies between 1 and 15. *)
Lemma storedFolder_number ty fo n :
  storedFolder (resolveFolder ty fo) = VNum n -> 1 <= n <= 15.
Proof.
  unfold resolveFolder.
  destruct (truthy ty && truthy (getProperty reportTypeToFolder ty)) eqn:Hty.
  - unfold getProperty.
    destruct (reportTypeToFolder !! ToString ty) as [m|] eqn:Hk.
    + intros [= <-]. exact (proj2 (reportTypeToFolder_range _ _ Hk)).
    + repeat case_bool_decide; discriminate.
  - destruct (isNumber fo || _); [|discriminate].
    destruct (parseInt fo 10) as [f|]; [|discriminate].
    destruct (Z.leb_spec 1 f), (Z.leb_spec f 15); cbn; try discriminate.
    intros [= <-]. lia.
Qed.

Lemma handle_keeps_files_well_stored jwt env r w :
  map_Forall wellStored (files w) ->
  map_Forall wellStored (files (after (handle jwt env r) w)).
Proof.
  intros Hw.
  assert (forall next,
             map_Forall wellStored (files (after next w)) ->
             forall a, map_Forall wellStored (files (after (authMiddleware jwt a next) w)))
    as Hguard.
  { intros next Hn a.
    destruct (authMiddleware_cases jwt a next w) as [-> | (msg & ->)]; assumption. }
  destruct r as [a b | a q | s | a s]; cbn [handle].
  - apply Hguard.
    destruct (submit_report_files env b w) as [-> | (Hf & _ & ->)]; [exact Hw|].
    apply map_Forall_insert_2; [|exact Hw].
    split; [|split; [|split]]; cbn [filename metadata_folder].
    + apply makeFilename_chars.
    + apply makeFilename_extension.
    + intros n. apply storedFolder_number.
    + apply generate_bound.
  - apply Hguard. exact Hw.
  - rewrite get_pdf_files. exact Hw.
  - apply Hguard.
    destruct (delete_report_files s w) as [-> | (i & ->)]; [exact Hw|].
    now apply map_Forall_delete.
Qed.

(** X5: whatever requests are handled, in whatever surroundings, every
    file in the bucket stays well stored: its name consists of letters,
    digits, [_], [-] and [.] only and ends in [.pdf], its folder, when
    it is a number, lies between 1 and 15, and its id is twelve bytes. *)
Theorem served_bucket_is_well_stored
    (jwt : Jwt) (rs : list (Env * Request)) (w : World) :
  map_Forall wellStored (files w) ->
  map_Forall wellStored (files (serve jwt rs w)).
Proof.
  revert w. induction rs as [|[env r] rs IH]; intros w Hw; [exact Hw|].
  cbn [serve]. apply IH, handle_keeps_files_well_stored, Hw.
Qed.

Lemma served_bucket_is_well_stored_witness :
  map_Forall wellStored
    (files (serve toyJwt
              [ (calmEnv, PostSubmitReport (Some (js "Bearer jwt.admin")) sampleBody);
                (calmEnv, GetAllReports (Some (js "Bearer jwt.admin")) VUndefined) ]
              emptyWorld)).
Proof.
  apply served_bucket_is_well_stored. apply map_Forall_empty.
Defined.

(** ** The listing *)

Lemma filter_keeps_NoDup_fst {A B} (p : A * B -> bool) (l : list (A * B)) :
  NoDup l.*1 -> NoDup (List.filter p l).*1.
Proof.
  induction l as [|x l IH]; intros H; [constructor|].
  cbn [fmap list_fmap] in H. apply NoDup_cons in H as [Hx Hl].
  cbn [List.filter]. destruct (p x); [|auto].
  cbn [fmap list_fmap]. apply NoDup_cons. split; [|auto].
  intros Hin. apply Hx.
  apply list_elem_of_fmap in Hin as (y & Hy & Hin).
  apply list_elem_of_In, filter_In in Hin as [Hin _].
  apply list_elem_of_fmap. exists y. split; [exact Hy|now apply list_elem_of_In].
Qed.

Lemma findFiles_NoDup f w : NoDup (findFiles f w).*1.
Proof.
  unfold findFiles. rewrite merge_sort_Permutation.
  apply filter_keeps_NoDup_fst, NoDup_fst_map_to_list.
Qed.

Lemma filter_all {A} (p : A -> bool) (l : list A) :
  (forall x, p x = true) -> List.filter p l = l.
Proof.
  intros H. induction l as [|x l IH]; [reflexivity|].
  cbn [List.filter]. now rewrite H, IH.
Qed.

Lemma entry_ids l : List.map entry_fileId (List.map toEntry l) = l.*1.
Proof. rewrite List.map_map. reflexivity. Qed.

(** X6: the listing answers 200 with one entry for each file whose
    [metadata.folder] is the number the [folder] query parses to, and
    with an entry for every file of the bucket when the query is absent
    or does not parse ([parseInt] gives [NaN]); no file is listed twice,
    and the bucket is left as it was. *)
Theorem listing_shows_the_matching_files (q : value) (w : World) :
  exists es,
    sent (after (all_reports q) w)
    = sent w ++ [ {| status := 200; body := JReports es |} ] /\
    files (after (all_reports q) w) = files w /\
    (forall i, i ∈ List.map entry_fileId es <->
               exists d, files w !! i = Some d /\
                         forall n, parseInt q 0 = Some n -> metadata_folder d = VNum n) /\
    NoDup (List.map entry_fileId es) /\
    (parseInt q 0 = None -> length es = size (files w)).
Proof.
  eexists. split; [apply all_reports_sent|]. split; [reflexivity|].
  split; [|split].
  - intros i. rewrite listing_ids. split; intros (d & Hd & Hm); exists d; (split; [exact Hd|]).
    + intros n Hn. rewrite Hn in Hm. cbn [matchesFilter] in Hm.
      now apply bool_decide_eq_true in Hm.
    + destruct (parseInt q 0) as [n|]; [|reflexivity].
      cbn [matchesFilter]. apply bool_decide_eq_true. now apply Hm.
  - rewrite entry_ids. apply findFiles_NoDup.
  - intros Hq. rewrite Hq, length_map. unfold findFiles.
    rewrite merge_sort_Permutation, filter_all by reflexivity.
    apply length_map_to_list.
Qed.

Lemma listing_shows_the_matching_files_witness :
  exists es,
    sent (after (all_reports (VStr (js "all")))
            (after (submit_report calmEnv sampleBody) emptyWorld))
    = sent (after (submit_report calmEnv sampleBody) emptyWorld)
      ++ [ {| status := 200; body := JReports es |} ] /\
    length es = size (files (after (submit_report calmEnv sampleBody) emptyWorld)).
Proof.
  destruct (listing_shows_the_matching_files (VStr (js "all"))
              (after (submit_report calmEnv sampleBody) emptyWorld))
    as (es & Hs & _ & _ & _ & Hlen).
  exists es. split; [exact Hs|]. apply Hlen. vm_compute. reflexivity.
Defined.

(** X7: the entries of a listing come newest first, and each one
    carries the id, the name and the upload date of a file of the
    bucket, with its folder, or [null] where the stored folder is
    falsy. *)
Theorem listing_is_newest_first (q : value) (w : World) :
  exists es,
    sent (after (all_reports q) w)
    = sent w ++ [ {| status := 200; body := JReports es |} ] /\
    Sorted (fun a b => entry_uploadDate b <= entry_uploadDate a) es /\
    Forall (fun e => exists d,
                files w !! entry_fileId e = Some d /\
                entry_filename e = filename d /\
                entry_uploadDate e = uploadDate d /\
                entry_folder e = (if truthy (metadata_folder d)
                                  then metadata_folder d else VNull)) es.
Proof.
  eexists. split; [apply all_reports_sent|]. split.
  - change (List.map toEntry ?l) with (toEntry <$> l).
    eapply Sorted_fmap; [|apply findFiles_sorted].
    intros x y H. exact H.
  - apply Forall_forall. intros e He.
    change (List.map toEntry ?l) with (toEntry <$> l) in He.
    apply list_elem_of_fmap in He as ([i d] & -> & Hp).
    apply findFiles_spec in Hp as [Hd _]. exists d. cbn in *. auto.
Qed.

(** ** One answer for each request *)




(** ** More on submissions *)

Ltac other_answer H :=
  apply app_inv_head in H; injection H as <-; cbn [status body] in *.

(** X9: a submission that is answered 200, or 500 with "Failed to upload
    PDF", has gone through the whole render step: the eight Playwright
    calls were made in the order of the source and none of them
    rejected, the document given to the page is the normalized input,
    and the browser has been closed again. *)
Theorem completed_render_closes_the_browser
    (env : Env) (req : SubmitBody) (w : World) (r : Response) :
  sent (after (submit_report env req) w) = sent w ++ [r] ->
  status r = 200 \/ body r = JError (js "Failed to upload PDF") ->
  (exists s,
      html req = VStr s /\
      callsOf env req =
        [ Launch true; NewContext; NewPage;
          SetContent (fullHtml s (resolvedTitle (reportTitle req) (reportType req)))
            (js "networkidle");
          EmulateMedia (js "screen"); WaitForTimeout 500; Pdf pdfOptions; Close ]) /\
  Forall (fun c => rejects env c = false) (callsOf env req) /\
  openBrowsers (after (submit_report env req) w) = openBrowsers w.
Proof.
  submit_cases env req; intros Hs Hr; other_answer Hs;
    try (exfalso; destruct Hr as [Hr | Hr]; [discriminate Hr|];
         injection Hr as Hr; vm_compute in Hr; discriminate Hr);
    (split; [eexists; split; reflexivity|]);
    (split; [|reflexivity]); cbn [app]; repeat constructor; assumption.
Qed.

Lemma completed_render_closes_the_browser_witness :
  openBrowsers (after (submit_report calmEnv sampleBody) emptyWorld) = 0%nat.
Proof.
  assert (sent (after (submit_report calmEnv sampleBody) emptyWorld)
          = sent emptyWorld ++ [ {| status := 200; body := JFileId 7%N |} ]) as Hs
    by (vm_compute; reflexivity).
  exact (proj2 (proj2 (completed_render_closes_the_browser calmEnv sampleBody
                         emptyWorld _ Hs (or_introl eq_refl)))).
Defined.

(** X10: an upload never replaces a file.  When the generated id is
    already in the bucket, or the upload stream reports an error, the
    submission is answered with an error (400 or 500, never 200) and the
    bucket is exactly as before. *)
Theorem upload_never_overwrites (env : Env) (req : SubmitBody) (w : World) :
  is_Some (files w !! ObjectId.generate (objectIdSeed env)) \/ uploadError env = true ->
  files (after (submit_report env req) w) = files w /\
  exists code msg,
    sent (after (submit_report env req) w)
    = sent w ++ [ {| status := code; body := JError msg |} ] /\
    (code = 400 \/ code = 500).
Proof.
  submit_cases env req; intros H;
    try (split; [reflexivity|]; eexists _, _; split; [reflexivity|]; auto; fail).
  exfalso. destruct H as [H | H]; [|congruence].
  match goal with
  | Hd : bool_decide (is_Some (files w !! ?j)) = false |- _ =>
      apply bool_decide_eq_false in Hd; exact (Hd H)
  end.
Qed.

Lemma upload_never_overwrites_witness :
  files (after (submit_report calmEnv sampleBody)
           (after (submit_report calmEnv sampleBody) emptyWorld))
  = files (after (submit_report calmEnv sampleBody) emptyWorld).
Proof.
  assert (is_Some (files (after (submit_report calmEnv sampleBody) emptyWorld)
                     !! ObjectId.generate (objectIdSeed calmEnv))
          \/ uploadError calmEnv = true) as H
    by (left; vm_compute; eauto).
  exact (proj1 (upload_never_overwrites calmEnv sampleBody
                  (after (submit_report calmEnv sampleBody) emptyWorld) H)).
Defined.

Lemma parseInt_small_decimal n :
  1 <= n <= 15 -> parseInt (VStr (Number_toString n)) 0 = Some n.
Proof.
  intros H.
  assert (n = 1 \/ n = 2 \/ n = 3 \/ n = 4 \/ n = 5 \/ n = 6 \/ n = 7 \/ n = 8 \/
          n = 9 \/ n = 10 \/ n = 11 \/ n = 12 \/ n = 13 \/ n = 14 \/ n = 15) as Hn by lia.
  repeat (destruct Hn as [-> | Hn]; [reflexivity|]). subst n. reflexivity.
Qed.

(** X11: a file stored by a submission classified into folder [n] is
    listed under a [folder] query exactly when the query parses to [n] or
    does not parse at all; in particular it is listed under the decimal
    spelling of [n] and without a query.  Reading it streams the bytes
    the capture resolved to, and every other file is where it was. *)
Theorem stored_file_is_listed_under_its_folder
    (env : Env) (req : SubmitBody) (w : World) (i : ObjectId.t) (n : Z) :
  let w1 := after (submit_report env req) w in
  sent w1 = sent w ++ [ {| status := 200; body := JFileId i |} ] ->
  resolveFolder (reportType req) (folder req) = VNum n ->
  (forall q,
      i ∈ List.map entry_fileId (List.map toEntry (findFiles (parseInt q 0) w1)) <->
      parseInt q 0 = None \/ parseInt q 0 = Some n) /\
  (1 <= n <= 15 ->
   i ∈ List.map entry_fileId
         (List.map toEntry (findFiles (parseInt (VStr (Number_toString n)) 0) w1))) /\
  sent (after (get_pdf (ObjectId.toHexString i)) w1)
  = sent w1 ++ [ {| status := 200; body := PdfStream (pdfBuffer env) |} ] /\
  (forall j, j <> i -> files w1 !! j = files w !! j).
Proof.
  intros w1 Hsent Hn.
  apply submit_report_stored in Hsent as (Hi & Hfree & Hfiles).
  rewrite Hn in Hfiles. cbn [storedFolder] in Hfiles. fold w1 in Hfiles.
  set (doc := {| filename := makeFilename (reportType req)
                               (resolvedTitle (reportTitle req) (reportType req))
                               (dateNow env);
                 metadata_folder := VNum n;
                 uploadDate := uploadClock env;
                 content := pdfBuffer env |}) in Hfiles.
  assert (files w1 !! i = Some doc) as Hdoc
    by (rewrite Hfiles; apply lookup_insert_eq).
  assert (forall q,
      i ∈ List.map entry_fileId (List.map toEntry (findFiles (parseInt q 0) w1)) <->
      parseInt q 0 = None \/ parseInt q 0 = Some n) as Hlist.
  { intros q. rewrite listing_ids. split.
    - intros (d & Hd & Hm). assert (d = doc) as -> by congruence.
      destruct (parseInt q 0) as [m|]; [|auto]. right.
      cbn [matchesFilter metadata_folder doc] in Hm.
      apply bool_decide_eq_true in Hm. congruence.
    - intros Hq. exists doc. split; [exact Hdoc|].
      destruct Hq as [-> | ->]; [reflexivity|].
      cbn [matchesFilter]. now apply bool_decide_eq_true. }
  split; [exact Hlist|]. split; [|split].
  - intros Hr. apply Hlist. right. now apply parseInt_small_decimal.
  - apply (get_pdf_found w1 i doc); [subst i; apply generate_bound|exact Hdoc].
  - intros j Hj. rewrite Hfiles. now apply lookup_insert_ne.
Qed.

Lemma stored_file_is_listed_under_its_folder_witness :
  7%N ∈ List.map entry_fileId
          (List.map toEntry
             (findFiles (parseInt (VStr (Number_toString 1)) 0)
                (after (submit_report calmEnv sampleBody) emptyWorld))).
Proof.
  assert (sent (after (submit_report calmEnv sampleBody) emptyWorld)
          = sent emptyWorld ++ [ {| status := 200; body := JFileId 7%N |} ]) as Hs
    by (vm_compute; reflexivity).
  assert (resolveFolder (reportType sampleBody) (folder sampleBody) = VNum 1) as Hn
    by (vm_compute; reflexivity).
  assert (1 <= 1 <= 15) as Hr by lia.
  exact (proj1 (proj2 (stored_file_is_listed_under_its_folder calmEnv sampleBody
                         emptyWorld 7%N 1 Hs Hn)) Hr).
Defined.

(** ** More on the classifier and the document *)

(** X12: what [folderNumber] can be after lines 91-97: [null], or a
    number between 1 and 15, or, only when the report type is truthy and
    is no own key of the taxonomy, a member that the taxonomy object
    inherits.  It is never another number, a string or a boolean. *)
Theorem resolveFolder_range (ty fo : value) :
  match resolveFolder ty fo with
  | VNull => True
  | VNum n => 1 <= n <= 15
  | VNative _ | VObjectPrototype =>
      truthy ty = true /\ reportTypeToFolder !! ToString ty = None
  | VUndefined | VBool _ | VStr _ => False
  end.
Proof.
  unfold resolveFolder.
  destruct (truthy ty && truthy (getProperty reportTypeToFolder ty)) eqn:Hty.
  - apply andb_true_iff in Hty as [Ht Hp]. unfold getProperty in *.
    destruct (reportTypeToFolder !! ToString ty) as [n|] eqn:Hk.
    + exact (proj2 (reportTypeToFolder_range _ _ Hk)).
    + repeat case_bool_decide; cbn in Hp; try discriminate; auto.
  - destruct (isNumber fo || _); [|exact I].
    destruct (parseInt fo 10) as [f|]; [|exact I].
    destruct (Z.leb_spec 1 f), (Z.leb_spec f 15); cbn; try exact I. lia.
Qed.

(** X13: with a report type that selects nothing, a folder given as an
    integer-valued number (below 10^21 in size, where numbers are
    spelt in plain digits) is taken exactly when it lies between 1 and
    15: the number goes through its decimal spelling and [parseInt]
    reads it back unchanged, so 0, negative numbers and numbers above
    15 are turned down. *)
Theorem numeric_folder_is_range_checked (ty : value) (z : Z) :
  Z.abs z < 10 ^ 21 ->
  truthy ty && truthy (getProperty reportTypeToFolder ty) = false ->
  parseInt (VNum z) 10 = Some z /\
  resolveFolder ty (VNum z) = (if (1 <=? z) && (z <=? 15) then VNum z else VNull) /\
  (truthy (resolveFolder ty (VNum z)) = true <-> 1 <= z <= 15).
Proof.
  intros Hz Hty. split; [apply parseInt_number, Hz|].
  rewrite (resolveFolder_number _ _ Hz Hty). split; [reflexivity|].
  destruct (Z.leb_spec 1 z), (Z.leb_spec z 15); cbn; split;
    try lia; discriminate.
Qed.

Lemma numeric_folder_is_range_checked_witness :
  resolveFolder VUndefined (VNum 16) = VNull.
Proof.
  assert (Z.abs 16 < 10 ^ 21) as Hz by (apply Z.ltb_lt; reflexivity).
  exact (proj1 (proj2 (numeric_folder_is_range_checked VUndefined 16 Hz eq_refl))).
Defined.

(** X14: normalizing a document is idempotent: the result always
    contains the root marker, so normalizing it again, with whatever
    title, gives it back unchanged. *)
Theorem fullHtml_idempotent (html title title' : jsstring) :
  fullHtml (fullHtml html title) title' = fullHtml html title.
Proof.
  unfold fullHtml at 1.
  assert (includes (fullHtml html title) rootMarker = true) as ->; [|reflexivity].
  unfold fullHtml. destruct (includes html rootMarker) eqn:E; [exact E|].
  apply documentShell_has_root.
Qed.

Lemma keepNameChars_id s :
  Forall (fun c => isNameChar c = true) s -> keepNameChars s = s.
Proof.
  unfold keepNameChars. induction 1 as [|c s Hc _ IH]; [reflexivity|].
  cbn [List.filter]. unfold isNameChar in Hc. now rewrite Hc, IH.
Qed.

Lemma reportTypeToFolder_key_chars k n :
  reportTypeToFolder !! k = Some n -> Forall (fun c => isNameChar c = true) k.
Proof.
  intros H. apply reportTypeToFolder_lookup in H.
  assert (Forall (fun p : jsstring * Z => Forall (fun c => isNameChar c = true) p.1)
            reportTypeToFolder_entries) as HF
    by (apply (bool_decide_unpack _); vm_compute; exact I).
  rewrite Forall_forall in HF. exact (HF _ H).
Qed.

(** X15: for a report type that is a key of the taxonomy the file is
    named after the key: the key as it is, a hyphen, the clock reading in
    decimal and [.pdf].  The title plays no part in the name. *)
Theorem taxonomy_key_names_the_file (k : jsstring) (n : Z) (title : jsstring) (now : Z) :
  0 <= now < 10 ^ 21 ->
  reportTypeToFolder !! k = Some n ->
  makeFilename (VStr k) title now = k ++ js "-" ++ Number_toString now ++ js ".pdf".
Proof.
  intros _ H. unfold makeFilename, safeNameBase.
  destruct (reportTypeToFolder_range _ _ H) as [Hk _].
  assert (truthy (VStr k) && isString (VStr k) = true) as ->
    by (destruct k; [congruence|reflexivity]).
  cbn [ToString]. now rewrite (keepNameChars_id _ (reportTypeToFolder_key_chars _ _ H)).
Qed.

Lemma taxonomy_key_names_the_file_witness :
  makeFilename (VStr (js "vacuum_ir")) (js "any title") 1700000000000
  = js "vacuum_ir-1700000000000.pdf".
Proof.
  assert (reportTypeToFolder !! js "vacuum_ir" = Some 11) as H
    by (vm_compute; reflexivity).
  assert (0 <= 1700000000000 < 10 ^ 21) as Hnow
    by (split; [apply Z.leb_le | apply Z.ltb_lt]; reflexivity).
  exact (taxonomy_key_names_the_file (js "vacuum_ir") 11 (js "any title")
           1700000000000 Hnow H).
Defined.

(** ** More on deleting and on submissions that are no strings *)

Lemma authMiddleware_authorized jwt a next :
  authorized jwt a = true -> authMiddleware jwt a next = next.
Proof.
  unfold authorized, authMiddleware.
  destruct (bearerToken a) as [t|]; [|discriminate].
  destruct (isEmpty t); [discriminate|].
  destruct (jwt_verify jwt t); [reflexivity|discriminate].
Qed.

Lemma authMiddleware_unauthorized jwt a next :
  authorized jwt a = false ->
  exists msg, authMiddleware jwt a next = send 401 (JError msg).
Proof.
  unfold authorized, authMiddleware.
  destruct (bearerToken a) as [t|]; [|eauto].
  destruct (isEmpty t); [eauto|].
  destruct (jwt_verify jwt t); [discriminate|eauto].
Qed.

(** X16: what a request to the delete route does, whatever it answers.
    It is answered 401 when the guard turns it down, 200 when the guard
    lets it through and the id it names is that of a file in the bucket,
    and 500 otherwise (the id is no id, or names no file).  Afterwards a
    file is in the bucket exactly when it was there before and is not
    the file named by a request the guard let through: the named file is
    gone and no other file is touched, and a request turned down at the
    guard removes nothing. *)
Theorem delete_removes_only_the_named_file
    (jwt : Jwt) (env : Env) (a : option jsstring) (fileId : jsstring) (w : World) :
  let w' := after (handle jwt env (DeleteReport a fileId)) w in
  (forall j : ObjectId.t,
      files w' !! j =
      if authorized jwt a && bool_decide (ObjectId.ofString fileId = Some j)
      then None else files w !! j) /\
  exists resp,
    sent w' = sent w ++ [resp] /\
    status resp =
      if negb (authorized jwt a) then 401
      else match ObjectId.ofString fileId with
           | Some i => if bool_decide (is_Some (files w !! i)) then 200 else 500
           | None => 500
           end.
Proof.
  intros w'. subst w'. cbn [handle].
  destruct (authorized jwt a) eqn:Ha; cbn [andb negb].
  - rewrite (authMiddleware_authorized _ _ _ Ha).
    unfold after, delete_report, try_catch, bind, new_ObjectId, bucket_delete.
    destruct (ObjectId.ofString fileId) as [i|] eqn:Hs.
    + cbv [ret]. destruct (files w !! i) eqn:Hi; cbn [fst snd files sent]; split.
      * intros j. case_bool_decide as Hj.
        -- injection Hj as ->. apply lookup_delete_eq.
        -- apply lookup_delete_ne. congruence.
      * eexists. split; [reflexivity|]. cbn [status].
        rewrite bool_decide_eq_true_2 by eauto. reflexivity.
      * intros j. case_bool_decide as Hj; [|reflexivity].
        injection Hj as <-. exact Hi.
      * eexists. split; [reflexivity|]. cbn [status].
        rewrite bool_decide_eq_false_2; [reflexivity|]. intros [x Hx]. discriminate.
    + split.
      * intros j. case_bool_decide; [discriminate|reflexivity].
      * eexists. split; reflexivity.
  - destruct (authMiddleware_unauthorized jwt a (delete_report fileId) Ha) as [msg ->].
    split; [reflexivity|]. eexists. split; reflexivity.
Qed.

(** X17: a truthy [html] that is no string (a number, [true]) passes the
    check of line 88 and fails at line 110, inside the [try] and after
    the browser was launched.  When the three calls before that line go
    through, the answer is 500 "Failed to generate PDF", nothing is
    stored, and the launched browser is left running. *)
Theorem non_string_html_fails_after_launch (env : Env) (req : SubmitBody) (w : World) :
  truthy (html req) = true ->
  isString (html req) = false ->
  truthy (resolveFolder (reportType req) (folder req)) = true ->
  rejects env (Launch true) = false ->
  rejects env NewContext = false ->
  rejects env NewPage = false ->
  let w' := after (submit_report env req) w in
  callsOf env req = [Launch true; NewContext; NewPage] /\
  sent w' = sent w ++ [ {| status := 500; body := JError (js "Failed to generate PDF") |} ] /\
  files w' = files w /\
  openBrowsers w' = S (openBrowsers w).
Proof.
  submit_cases env req; intros Hh Hs Hf HL HC HP; try discriminate;
    repeat split.
Qed.

Lemma non_string_html_fails_after_launch_witness :
  openBrowsers
    (after (submit_report calmEnv
              {| html := VNum 5; reportType := VStr (js "stage_ir");
                 folder := VUndefined; reportTitle := VUndefined |})
       emptyWorld) = 1%nat.
Proof.
  exact (proj2 (proj2 (proj2
    (non_string_html_fails_after_launch calmEnv
       {| html := VNum 5; reportType := VStr (js "stage_ir");
          folder := VUndefined; reportTitle := VUndefined |}
       emptyWorld eq_refl eq_refl eq_refl eq_refl eq_refl eq_refl)))).
Defined.

(** X18: the title is taken from the first truthy one of [reportTitle],
    [reportType] and the literal ["Report"]; when that text has no [<]
    and at most 150 code units it is the title as it stands, and in any
    case the title is at most as long as the text. *)
Theorem title_is_kept_when_harmless (rt ty : value) :
  let text := ToString (if truthy rt then rt
                        else if truthy ty then ty else VStr (js "Report")) in
  ((60%N ∉ text) -> (length text <= 150)%nat -> resolvedTitle rt ty = text) /\
  (length (resolvedTitle rt ty) <= length text)%nat.
Proof.
  intros text. split.
  - apply resolvedTitle_unchanged.
  - rewrite resolvedTitle_source. fold text. unfold slice0, removeAll.
    rewrite length_firstn.
    pose proof (filter_length_le (fun x => negb (x =? 60)%N) text). lia.
Qed.

Lemma title_is_kept_when_harmless_witness :
  resolvedTitle (VStr (js "Weld map > rev 2")) (VStr (js "stage_ir"))
  = js "Weld map > rev 2".
Proof.
  apply (proj1 (title_is_kept_when_harmless (VStr (js "Weld map > rev 2"))
                  (VStr (js "stage_ir")))).
  - apply (bool_decide_unpack _). vm_compute. exact I.
  - vm_compute. repeat constructor.
Defined.
